(** * Background-removal filter: a shallow embedding of [src/background-filter.cpp]

    The development follows the C++ file top to bottom: the IEEE-754
    arithmetic the filter performs on its [float] fields, the OpenCV
    matrices it manipulates, the three external collaborators (libobs,
    ONNX Runtime, OpenCV) as interfaces, the filter structure with its
    life-cycle functions, and finally [filter_render].  Theorems about the
    pipeline come after all definitions. *)

From Stdlib Require Import ZArith QArith List Bool String Lia.
From Stdlib Require Import Floats.SpecFloat.
Import ListNotations.
Local Open Scope Z_scope.

(** ** IEEE-754 values of the C++ types [float] and [double]

    Both are [spec_float]; the format only shows in the rounding of the
    operations.  [float] is binary32 (24-bit significand), [double] is
    binary64 (53-bit significand).  An operation on two [float] operands
    is rounded to binary32, as on the targets the plugin is built for
    (FLT_EVAL_METHOD = 0). *)
Module IEEE.

Definition float := spec_float.
Definition double := spec_float.

Definition valid_float (x : float) : bool := valid_binary 24 128 x.
Definition valid_double (x : double) : bool := valid_binary 53 1024 x.

(** Integer to floating point, rounding to nearest even. *)
Definition float_of_Z (n : Z) : float := binary_normalize 24 128 n 0 false.
Definition double_of_Z (n : Z) : double := binary_normalize 53 1024 n 0 false.

(** The implicit promotion [float -> double] (exact) and the cast
    [(float)d] (rounding to nearest even). *)
Definition double_of_float (x : float) : double :=
  match x with
  | S754_finite s m e => binary_normalize 53 1024 (cond_Zopp s (Zpos m)) e s
  | _ => x
  end.

Definition float_of_double (x : double) : float :=
  match x with
  | S754_finite s m e => binary_normalize 24 128 (cond_Zopp s (Zpos m)) e s
  | _ => x
  end.

Definition fmul (x y : float) : float := SFmul 24 128 x y.
Definition ddiv (x y : double) : double := SFdiv 53 1024 x y.

(** Comparisons; any comparison with a NaN is false. *)
Definition lt (x y : spec_float) : bool := SFltb x y.
Definition gt (x y : spec_float) : bool := SFltb y x.

(** Truncation toward zero of a finite value. *)
Definition trunc (x : spec_float) : option Z :=
  match x with
  | S754_zero _ => Some 0
  | S754_finite s m e => Some (cond_Zopp s (Z.shiftl (Zpos m) e))
  | S754_infinity _ | S754_nan => None
  end.

(** The casts [(int)x] and [(int64_t)x]: truncation, undefined when the
    truncated value does not fit the target type. *)
Definition cast_to (bits : Z) (x : spec_float) : option Z :=
  match trunc x with
  | Some z =>
      if (- 2 ^ (bits - 1) <=? z) && (z <? 2 ^ (bits - 1)) then Some z else None
  | None => None
  end.

Definition cast_int : float -> option Z := cast_to 32.
Definition cast_int64 : float -> option Z := cast_to 64.

(** Decimal literals of the source, as the correctly rounded quotient of
    two exactly representable integers. *)
Definition double_lit (num den : Z) : double := ddiv (double_of_Z num) (double_of_Z den).

Definition zero : spec_float := S754_zero false.
Definition d0_0 : double := zero.
Definition d1_0 : double := double_of_Z 1.
Definition d0_01 : double := double_lit 1 100.
Definition d0_5 : double := double_lit 1 2.
Definition d0_05 : double := double_lit 5 100.

(** [0.01f], the [float] nearest to 0.01: 0x3C23D70A. *)
Definition f0_01 : float := float_of_double d0_01.
(** Its predecessor 0x3C23D709. *)
Definition f0_01_pred : float := S754_finite false 10737417 (-30).

End IEEE.
Import IEEE.

(** The conversion [(int)x] of a 64-bit integer: reduction modulo [2^32]
    into the signed range. *)
Definition to_int (z : Z) : Z := (z + 2 ^ 31) mod 2 ^ 32 - 2 ^ 31.

(** The conversion to [int64_t] of a product computed in 64 bits. *)
Definition to_int64 (z : Z) : Z := (z + 2 ^ 63) mod 2 ^ 64 - 2 ^ 63.

(** ** Outcome of a call that may leave through a C++ exception or by
    undefined behaviour instead of returning. *)
Inductive fault : Type :=
| OutOfRange      (* std::out_of_range thrown by std::vector::at *)
| NullSession     (* operator-> on an empty std::unique_ptr<Ort::Session> *)
| UndefinedCast   (* floating value outside the range of the integer type *)
| CvException     (* cv::Exception thrown inside an OpenCV routine *)
| OrtException.   (* Ort::Exception thrown by Ort::Session::Run *)

Inductive outcome (A : Type) : Type :=
| Returned (a : A)
| Faulted (f : fault).
Arguments Returned {A} a.
Arguments Faulted {A} f.

Definition bind {A B : Type} (c : outcome A) (k : A -> outcome B) : outcome B :=
  match c with
  | Returned a => k a
  | Faulted f => Faulted f
  end.

Notation "x <- c ;; k" := (bind c (fun x => k))
  (at level 61, c at next level, right associativity).
Notation "' p <- c ;; k" := (bind c (fun x => match x with p => k end))
  (at level 61, p pattern, c at next level, right associativity).

Definition of_option {A : Type} (f : fault) (o : option A) : outcome A :=
  match o with
  | Some a => Returned a
  | None => Faulted f
  end.

(** [v.at(i)] on a [std::vector]. *)
Definition vector_at {A : Type} (v : list A) (i : nat) : outcome A :=
  of_option OutOfRange (nth_error v i).

(** [v.resize(n)] where it returns, that is for [0 <= n]: keeps the
    existing prefix, value-initialises the rest.  A negative [int64_t]
    converted to [size_t] exceeds [max_size()] and the call throws
    [std::length_error] instead. *)
Definition vector_resize {A : Type} (dflt : A) (v : list A) (n : Z) : list A :=
  firstn (Z.to_nat n) v ++ repeat dflt (Z.to_nat n - List.length v)%nat.

(** [vectorProduct] (lines 63-67): left fold of [std::multiplies] from 1,
    in [int64_t]. *)
Definition vectorProduct (v : list Z) : Z :=
  fold_left (fun acc d => to_int64 (acc * d)) v 1.

(** ** OpenCV matrices *)

Record Mat (A : Type) : Type := mkMat {
  rows : Z;
  cols : Z;
  elems : list A  (* row-major *)
}.
Arguments mkMat {A} rows cols elems.
Arguments rows {A} m.
Arguments cols {A} m.
Arguments elems {A} m.

(** [cv::Size(width, height)]: the width comes first. *)
Record Size : Type := mkSize { width : Z; height : Z }.

Definition mat_size {A : Type} (m : Mat A) : Size := mkSize (cols m) (rows m).
Definition total {A : Type} (m : Mat A) : Z := rows m * cols m.

Definition mat_map {A B : Type} (f : A -> B) (m : Mat A) : Mat B :=
  mkMat (rows m) (cols m) (map f (elems m)).

Definition uchar := Z.
Definition pixel : Type := uchar * uchar * uchar.     (* CV_8UC3 *)
Definition pixelf : Type := float * float * float.    (* CV_32FC3 *)
Definition scalar3 : Type := double * double * double.

(** [cv::cvtColor(_, _, cv::COLOR_BGR2RGB)]. *)
Definition cvtColor_BGR2RGB (m : Mat pixel) : Mat pixel :=
  mat_map (fun '(b, g, r) => (r, g, b)) m.

(** [m.convertTo(_, CV_32F)] on 8-bit data. *)
Definition convertTo_32F (m : Mat pixel) : Mat pixelf :=
  mat_map (fun '(a, b, c) => (float_of_Z a, float_of_Z b, float_of_Z c)) m.

(** [m > s] and [m < s] on a [CV_32FC1] matrix: 255 where the comparison
    holds, 0 elsewhere. *)
Definition compare_gt_32F (m : Mat float) (s : float) : Mat uchar :=
  mat_map (fun v => if gt v s then 255 else 0) m.
Definition compare_lt_32F (m : Mat float) (s : float) : Mat uchar :=
  mat_map (fun v => if lt v s then 255 else 0) m.

(** [m > s] on a [CV_8UC1] matrix. *)
Definition compare_gt_8U (m : Mat uchar) (s : Z) : Mat uchar :=
  mat_map (fun v => if s <? v then 255 else 0) m.

(** [m.setTo(0)]. *)
Definition setTo_zero (m : Mat uchar) : Mat uchar := mat_map (fun _ => 0) m.

(** [img.setTo(color, mask)]: the pixels whose mask element is non-zero
    receive [color], the others are left as they are. *)
Fixpoint setTo_elems (color : pixel) (img : list pixel) (mask : list uchar) : list pixel :=
  match img, mask with
  | p :: img', v :: mask' => (if v =? 0 then p else color) :: setTo_elems color img' mask'
  | _, _ => img
  end.

Definition setTo_masked (img : Mat pixel) (color : pixel) (mask : Mat uchar) : Mat pixel :=
  mkMat (rows img) (cols img) (setTo_elems color (elems img) (elems mask)).

(** [hwc_to_chw] (lines 69-80): [cv::split] into the three channel planes,
    each reshaped to one row, then [cv::hconcat]. *)
Definition hwc_to_chw (src : Mat pixelf) : Mat float :=
  let c0 := map (fun '(a, _, _) => a) (elems src) in
  let c1 := map (fun '(_, b, _) => b) (elems src) in
  let c2 := map (fun '(_, _, c) => c) (elems src) in
  mkMat 1 (3 * total src) (c0 ++ c1 ++ c2).

Definition point : Type := Z * Z.
Definition contour : Type := list point.

(** The OpenCV routines whose implementation lies outside the repository.
    [cv::resize] is split into the interpolation of the samples (external)
    and the geometry of its result (see [cv_resize] below). *)
Class OpenCV : Type := {
  resize_samples_8UC3 : Mat pixel -> Size -> list pixel;
  resize_samples_8UC1 : Mat uchar -> Size -> list uchar;
  (* element of cv::subtract(m, Scalar), cv::multiply(m, Scalar), m / d on CV_32F *)
  subtract_32F : float -> double -> float;
  multiply_32F : float -> double -> float;
  divide_32F : float -> double -> float;
  (* findContours(_, _, cv::RETR_EXTERNAL, cv::CHAIN_APPROX_SIMPLE) *)
  findContours : Mat uchar -> list contour;
  contourArea : contour -> double;
  (* drawContours(_, _, -1, cv::Scalar(255), -1) *)
  drawContours : Mat uchar -> list contour -> Mat uchar;
  (* cv::boxFilter(m, m, m.depth(), ksize); None when the routine throws,
     which nothing in filter_render catches *)
  boxFilter : Mat uchar -> Size -> option (Mat uchar)
}.

Section OpenCVOps.
Context {cv : OpenCV}.

(** [cv::resize(src, dst, dsize)] as it returns: [dst] has
    [dsize.height] rows and [dsize.width] columns. *)
Definition cv_resize_8UC3 (src : Mat pixel) (dsize : Size) : Mat pixel :=
  mkMat (height dsize) (width dsize) (resize_samples_8UC3 src dsize).

Definition cv_resize_8UC1 (src : Mat uchar) (dsize : Size) : Mat uchar :=
  mkMat (height dsize) (width dsize) (resize_samples_8UC1 src dsize).

Definition on_channels (op : float -> double -> float) (m : Mat pixelf) (s : scalar3)
  : Mat pixelf :=
  let '(s0, s1, s2) := s in
  mat_map (fun '(a, b, c) => (op a s0, op b s1, op c s2)) m.

Definition cv_subtract := on_channels subtract_32F.
Definition cv_multiply := on_channels multiply_32F.
Definition cv_divide (m : Mat pixelf) (d : double) := on_channels divide_32F m (d, d, d).
End OpenCVOps.

(** ** libobs: module files and the media-io colorspace converter *)

Inductive video_format : Type :=
| VIDEO_FORMAT_NONE | VIDEO_FORMAT_I420 | VIDEO_FORMAT_NV12 | VIDEO_FORMAT_YVYU
| VIDEO_FORMAT_YUY2 | VIDEO_FORMAT_UYVY | VIDEO_FORMAT_RGBA | VIDEO_FORMAT_BGRA
| VIDEO_FORMAT_BGRX | VIDEO_FORMAT_Y800 | VIDEO_FORMAT_I444 | VIDEO_FORMAT_BGR3.

(** [struct video_scale_info]; range and colorspace are always the
    defaults here. *)
Record video_scale_info : Type := mkInfo {
  vsi_format : video_format;
  vsi_width : Z;
  vsi_height : Z
}.

(** A [video_scaler_t] instance: the handle identifies the object, the two
    descriptions are the ones it was built with. *)
Record video_scaler : Type := mkScaler {
  vs_handle : nat;
  vs_dst : video_scale_info;
  vs_src : video_scale_info
}.

Definition planes : Type := list (list Z).

Record obs_source_frame : Type := mkFrame {
  frame_data : planes;
  frame_linesize : list Z;
  frame_width : Z;
  frame_height : Z;
  frame_format : video_format
}.

Class LibObs : Type := {
  (* obs_module_file: NULL when the file is not found *)
  obs_module_file : string -> option string;
  (* video_scaler_scale into a packed BGR buffer, and back into the planes *)
  scale_to_BGR : video_scaler -> planes -> list Z -> list pixel;
  scale_from_BGR : video_scaler -> Mat pixel -> planes
}.

(** ** ONNX Runtime *)

(** What a constructed [Ort::Session] answers: names and shapes of its
    first input and output, and the function [Run] computes. *)
Record OrtModel : Type := mkModel {
  GetInputName : string;
  GetOutputName : string;
  GetInputShape : list Z;
  GetOutputShape : list Z;
  (* None when Run throws: filter_render has no try block around it *)
  Run : list float -> option (list float)
}.

Record Session : Type := mkSession {
  session_handle : nat;
  session_model : OrtModel
}.

Class OnnxRuntime : Type := {
  (* new Ort::Session(env, path, options); None when the constructor throws *)
  Session_new : string -> bool -> option OrtModel
}.

(** ** The calls made to the collaborators, most recent first, and the
    allocator of object identities. *)
Inductive call : Type :=
| Call_scaler_create (s : video_scaler)
| Call_scaler_destroy (s : video_scaler)
| Call_scaler_scale (s : video_scaler) (w h : Z) (fmt : video_format)
| Call_session_new (handle : nat) (path : string)
| Call_session_run (handle : nat).

Record World : Type := mkWorld {
  next_handle : nat;
  calls : list call
}.

Definition record_call (c : call) (w : World) : World :=
  mkWorld (next_handle w) (c :: calls w).

Definition fresh_handle (w : World) : nat * World :=
  (next_handle w, mkWorld (S (next_handle w)) (calls w)).

(** ** The filter structure (lines 24-52) *)

Record background_removal_filter : Type := mkFilter {
  session : option Session;
  inputNames : list string;
  outputNames : list string;
  inputDims : list Z;
  outputDims : list Z;
  outputTensorValues : list float;
  inputTensorValues : list float;
  threshold : float;
  backgroundColor : pixel;   (* cv::Scalar holding three integers of 0..255 *)
  contourFilter : float;
  smoothContour : float;
  useGPU : bool;
  modelSelection : string;
  scalerToBGR : option video_scaler;
  scalerFromBGR : option video_scaler;
  modelFilepath : option string
}.

Definition MODEL_SINET : string := "SINet_Softmax_simple.onnx".
Definition MODEL_MODNET : string := "modnet_simple.onnx".

(** [obs_data_t] restricted to the keys the filter reads. *)
Record obs_data : Type := mkSettings {
  get_threshold : double;
  get_contour_filter : double;
  get_smooth_contour : double;
  get_replaceColor : Z;
  get_useGPU : bool;
  get_model_select : string
}.

(** [filter_defaults] (lines 141-148). *)
Definition filter_defaults : obs_data :=
  mkSettings d0_5 d0_05 d0_5 0 false MODEL_SINET.

(** The structure as [bzalloc] returns it: every byte zero. *)
Definition bzalloc_filter : background_removal_filter :=
  mkFilter None [] [] [] [] [] [] zero (0, 0, 0) zero zero false EmptyString None None None.

Definition set_scalers (tf : background_removal_filter) (a b : option video_scaler) :=
  mkFilter (session tf) (inputNames tf) (outputNames tf) (inputDims tf) (outputDims tf)
    (outputTensorValues tf) (inputTensorValues tf) (threshold tf) (backgroundColor tf)
    (contourFilter tf) (smoothContour tf) (useGPU tf) (modelSelection tf) a b
    (modelFilepath tf).

Definition set_modelFilepath (tf : background_removal_filter) (p : option string) :=
  mkFilter (session tf) (inputNames tf) (outputNames tf) (inputDims tf) (outputDims tf)
    (outputTensorValues tf) (inputTensorValues tf) (threshold tf) (backgroundColor tf)
    (contourFilter tf) (smoothContour tf) (useGPU tf) (modelSelection tf)
    (scalerToBGR tf) (scalerFromBGR tf) p.

Definition set_inputTensorValues (tf : background_removal_filter) (v : list float) :=
  mkFilter (session tf) (inputNames tf) (outputNames tf) (inputDims tf) (outputDims tf)
    (outputTensorValues tf) v (threshold tf) (backgroundColor tf)
    (contourFilter tf) (smoothContour tf) (useGPU tf) (modelSelection tf)
    (scalerToBGR tf) (scalerFromBGR tf) (modelFilepath tf).

Definition set_outputTensorValues (tf : background_removal_filter) (v : list float) :=
  mkFilter (session tf) (inputNames tf) (outputNames tf) (inputDims tf) (outputDims tf)
    v (inputTensorValues tf) (threshold tf) (backgroundColor tf)
    (contourFilter tf) (smoothContour tf) (useGPU tf) (modelSelection tf)
    (scalerToBGR tf) (scalerFromBGR tf) (modelFilepath tf).

Section Filter.
Context {cv : OpenCV} {obs : LibObs} {ort : OnnxRuntime}.

(** [createOrtSession] (lines 150-230).  The two [resize] calls at lines
    203 and 209 stand outside the [try] block; the function is given as
    it returns, which is for shapes of non-negative product.  Statements
    about the buffers carry that condition. *)
Definition createOrtSession (tf : background_removal_filter) (w : World)
  : background_removal_filter * World :=
  match obs_module_file (modelSelection tf) with
  | None => (tf, w)                          (* lines 163-166 *)
  | Some modelFilepath_s =>
      let tf := set_modelFilepath tf (Some modelFilepath_s) in
      match Session_new modelFilepath_s (useGPU tf) with
      | None => (tf, w)                      (* lines 186-189 *)
      | Some model =>
          let '(h, w) := fresh_handle w in
          let w := record_call (Call_session_new h modelFilepath_s) w in
          let outputDims' := GetOutputShape model in
          let inputDims' := GetInputShape model in
          (mkFilter (Some (mkSession h model))
             [GetInputName model] [GetOutputName model]
             inputDims' outputDims'
             (vector_resize zero (outputTensorValues tf) (vectorProduct outputDims'))
             (vector_resize zero (inputTensorValues tf) (vectorProduct inputDims'))
             (threshold tf) (backgroundColor tf) (contourFilter tf) (smoothContour tf)
             (useGPU tf) (modelSelection tf) (scalerToBGR tf) (scalerFromBGR tf)
             (modelFilepath tf),
           w)
      end
  end.

(** [destroyScalers] (lines 233-243). *)
Definition destroyScalers (tf : background_removal_filter) (w : World)
  : background_removal_filter * World :=
  let w := match scalerToBGR tf with
           | Some s => record_call (Call_scaler_destroy s) w
           | None => w
           end in
  let w := match scalerFromBGR tf with
           | Some s => record_call (Call_scaler_destroy s) w
           | None => w
           end in
  (set_scalers tf None None, w).

(** [filter_update] (lines 246-266). *)
Definition filter_update (tf : background_removal_filter) (settings : obs_data) (w : World)
  : background_removal_filter * World :=
  let color := get_replaceColor settings in
  let tf :=
    mkFilter (session tf) (inputNames tf) (outputNames tf) (inputDims tf) (outputDims tf)
      (outputTensorValues tf) (inputTensorValues tf)
      (float_of_double (get_threshold settings))
      (Z.land color 255, Z.land (Z.shiftr color 8) 255, Z.land (Z.shiftr color 16) 255)
      (float_of_double (get_contour_filter settings))
      (float_of_double (get_smooth_contour settings))
      (get_useGPU settings)
      (get_model_select settings)
      (scalerToBGR tf) (scalerFromBGR tf) (modelFilepath tf) in
  let '(tf, w) := destroyScalers tf w in
  createOrtSession tf w.

(** [filter_create] (lines 271-281). *)
Definition filter_create (settings : obs_data) (w : World)
  : background_removal_filter * World :=
  filter_update bzalloc_filter settings w.

(** [initializeScalers] (lines 284-312).  The result of
    [video_scaler_create] is not read at lines 310-311; the two creations
    are given as they succeed. *)
Definition initializeScalers (frameSize : Size) (frameFormat : video_format)
    (tf : background_removal_filter) (w : World) : background_removal_filter * World :=
  let dst := mkInfo VIDEO_FORMAT_BGR3 (width frameSize) (height frameSize) in
  let src := mkInfo frameFormat (width frameSize) (height frameSize) in
  let '(tf, w) := destroyScalers tf w in
  let '(h1, w) := fresh_handle w in
  let toBGR := mkScaler h1 dst src in
  let w := record_call (Call_scaler_create toBGR) w in
  let '(h2, w) := fresh_handle w in
  let fromBGR := mkScaler h2 src dst in
  let w := record_call (Call_scaler_create fromBGR) w in
  (set_scalers tf (Some toBGR) (Some fromBGR), w).

Definition frame_size (frame : obs_source_frame) : Size :=
  mkSize (frame_width frame) (frame_height frame).

Definition scale_call (s : video_scaler) (frame : obs_source_frame) : call :=
  Call_scaler_scale s (frame_width frame) (frame_height frame) (frame_format frame).

(** [convertFrameToBGR] (lines 315-331).  The scaler handed to
    [video_scaler_scale] is the one the structure holds after the lazy
    initialisation; with none there, libobs converts nothing.  The
    conversion is given as it returns: a converter built for a larger
    frame makes libobs write beyond [imageBGR]. *)
Definition convertFrameToBGR (frame : obs_source_frame)
    (tf : background_removal_filter) (w : World)
  : Mat pixel * background_removal_filter * World :=
  let frameSize := frame_size frame in
  let '(tf, w) :=
    match scalerToBGR tf with
    | None => initializeScalers frameSize (frame_format frame) tf w
    | Some _ => (tf, w)
    end in
  match scalerToBGR tf with
  | Some s =>
      (mkMat (height frameSize) (width frameSize)
         (scale_to_BGR s (frame_data frame) (frame_linesize frame)),
       tf, record_call (scale_call s frame) w)
  | None => (mkMat (height frameSize) (width frameSize) [], tf, w)
  end.

(** [convertBGRToFrame] (lines 334-346). *)
Definition convertBGRToFrame (imageBGR : Mat pixel) (frame : obs_source_frame)
    (tf : background_removal_filter) (w : World)
  : obs_source_frame * background_removal_filter * World :=
  let '(tf, w) :=
    match scalerFromBGR tf with
    | None => initializeScalers (frame_size frame) (frame_format frame) tf w
    | Some _ => (tf, w)
    end in
  match scalerFromBGR tf with
  | Some s =>
      (mkFrame (scale_from_BGR s imageBGR) (frame_linesize frame)
         (frame_width frame) (frame_height frame) (frame_format frame),
       tf, record_call (scale_call s frame) w)
  | None => (frame, tf, w)
  end.
End Filter.

(** ** [filter_render] (lines 349-430), stage by stage *)
Section Render.
Context {cv : OpenCV} {obs : LibObs} {ort : OnnxRuntime}.

Definition is_SINet (tf : background_removal_filter) : bool :=
  String.eqb (modelSelection tf) MODEL_SINET.

(** Lines 360-362: the resize to the network input size.  The two
    arguments of [cv::Size] are [inputDims.at(2)] and [inputDims.at(3)],
    in this order. *)
Definition resize_to_network_input (tf : background_removal_filter)
    (imageRGB : Mat pixel) : outcome (Mat pixel) :=
  d2 <- vector_at (inputDims tf) 2 ;;
  d3 <- vector_at (inputDims tf) 3 ;;
  Returned (cv_resize_8UC3 imageRGB (mkSize (to_int d2) (to_int d3))).

Definition SINet_mean : scalar3 :=
  (double_lit 102890434 1000000, double_lit 11125247 100000, double_lit 12691212 100000).

Definition SINet_scale : scalar3 :=
  (ddiv (ddiv d1_0 (double_lit 6293292 100000)) (double_of_Z 255),
   ddiv (ddiv d1_0 (double_lit 6282138 100000)) (double_of_Z 255),
   ddiv (ddiv d1_0 (double_lit 66355705 1000000)) (double_of_Z 255)).

Definition d127_5 : double := double_lit 1275 10.

(** Lines 365-376: conversion to [float], per-model normalisation and
    repacking into planes. *)
Definition normalize_and_pack (tf : background_removal_filter)
    (resizedImageRGB : Mat pixel) : Mat float :=
  let resizedImage := convertTo_32F resizedImageRGB in
  let resizedImage :=
    if is_SINet tf
    then cv_multiply (cv_subtract resizedImage SINet_mean) SINet_scale
    else cv_divide (cv_subtract resizedImage (d127_5, d127_5, d127_5)) d127_5 in
  hwc_to_chw resizedImage.

(** Lines 393-398: the thresholded mask. *)
Definition threshold_mask (tf : background_removal_filter) (outputImage : Mat float)
  : Mat uchar :=
  if is_SINet tf
  then compare_gt_32F outputImage (threshold tf)
  else compare_lt_32F outputImage (threshold tf).

Definition contour_enabled (tf : background_removal_filter) : bool :=
  gt (double_of_float (contourFilter tf)) d0_0
  && lt (double_of_float (contourFilter tf)) d1_0.

(** Line 405: [(int64_t)(backgroundMask.total() * tf->contourFilter)];
    the product is a [float] product. *)
Definition contourSizeThreshold (tf : background_removal_filter)
    (backgroundMask : Mat uchar) : option Z :=
  cast_int64 (fmul (float_of_Z (total backgroundMask)) (contourFilter tf)).

(** Line 407: [cv::contourArea(contour) > contourSizeThreshold]. *)
Definition contour_kept (thr : Z) (c : contour) : bool :=
  gt (contourArea c) (double_of_Z thr).

(** Lines 400-413: contour processing. *)
Definition contour_processing (tf : background_removal_filter)
    (backgroundMask : Mat uchar) : outcome (Mat uchar) :=
  if contour_enabled tf then
    let contours := findContours backgroundMask in
    thr <- of_option UndefinedCast (contourSizeThreshold tf backgroundMask) ;;
    let filteredContours := filter (contour_kept thr) contours in
    Returned (drawContours (setTo_zero backgroundMask) filteredContours)
  else Returned backgroundMask.

Definition smooth_enabled (tf : background_removal_filter) : bool :=
  gt (double_of_float (smoothContour tf)) d0_0.

(** Line 420: [(int)(100 * tf->smoothContour)]. *)
Definition k_size (tf : background_removal_filter) : option Z :=
  cast_int (fmul (float_of_Z 100) (smoothContour tf)).

(** Lines 418-423: smoothing with a box filter and re-binarisation.  The
    kernel size is not tested before the call: what [cv::boxFilter] does
    with it, an empty kernel included, is the routine's. *)
Definition smooth_mask (tf : background_removal_filter) (backgroundMask : Mat uchar)
  : outcome (Mat uchar) :=
  if smooth_enabled tf then
    k <- of_option UndefinedCast (k_size tf) ;;
    blurred <- of_option CvException (boxFilter backgroundMask (mkSize k k)) ;;
    Returned (compare_gt_8U blurred 128)
  else Returned backgroundMask.

(** Lines 393-423: from the network output to the frame-size mask. *)
Definition postprocess (tf : background_removal_filter) (outputImage : Mat float)
    (frameSize : Size) : outcome (Mat uchar) :=
  backgroundMask <- contour_processing tf (threshold_mask tf outputImage) ;;
  smooth_mask tf (cv_resize_8UC1 backgroundMask frameSize).

(** Lines 393-425: the mask applied to the image. *)
Definition mask_the_input (tf : background_removal_filter) (outputImage : Mat float)
    (imageBGR : Mat pixel) : outcome (Mat pixel) :=
  backgroundMask <- postprocess tf outputImage (mat_size imageBGR) ;;
  Returned (setTo_masked imageBGR (backgroundColor tf) backgroundMask).

(** Lines 381-385: [tf->session->Run(...)], which reads
    [inputTensorValues] and writes [outputTensorValues] through the two
    tensors built over them. *)
Definition run_inference (tf : background_removal_filter) (w : World)
  : outcome (background_removal_filter * World) :=
  s <- of_option NullSession (session tf) ;;
  output <- of_option OrtException (Run (session_model s) (inputTensorValues tf)) ;;
  Returned (set_outputTensorValues tf output,
            record_call (Call_session_run (session_handle s)) w).

(** Lines 387-391: the network output seen as a one-channel image. *)
Definition output_image (tf : background_removal_filter) : outcome (Mat float) :=
  r <- vector_at (outputDims tf) 2 ;;
  c <- vector_at (outputDims tf) 3 ;;
  Returned (mkMat (to_int r) (to_int c)
              (firstn (Z.to_nat (to_int r * to_int c)) (outputTensorValues tf))).

Definition filter_render (tf : background_removal_filter) (frame : obs_source_frame)
    (w : World) : outcome (obs_source_frame * background_removal_filter * World) :=
  let '(imageBGR, tf, w) := convertFrameToBGR frame tf w in
  let imageRGB := cvtColor_BGR2RGB imageBGR in
  resizedImageRGB <- resize_to_network_input tf imageRGB ;;
  let preprocessedImage := normalize_and_pack tf resizedImageRGB in
  let tf := set_inputTensorValues tf (elems preprocessedImage) in
  '(tf, w) <- run_inference tf w ;;
  outputImage <- output_image tf ;;
  imageBGR <- mask_the_input tf outputImage imageBGR ;;
  Returned (convertBGRToFrame imageBGR frame tf w).
End Render.

(** ** Executable stand-ins for the collaborators

    Used to run the pipeline on concrete frames.  Each one agrees with the
    real routine on the inputs it is run on below: frames already in packed
    BGR, resizes between equal sizes or of uniform images, masks whose
    foreground is empty, one solid axis-parallel rectangle or a corner of
    three pixels, box filters of uniform masks or with a 1x1 kernel.  The
    box filter refuses an empty kernel. *)
Module Ref.

Definition zrange (n : Z) : list Z := map Z.of_nat (seq 0 (Z.to_nat n)).

(** Nearest-neighbour sampling. *)
Definition nearest_samples {A : Type} (d : A) (src : Mat A) (dsize : Size) : list A :=
  flat_map
    (fun y =>
       map (fun x =>
              nth (Z.to_nat ((y * rows src / height dsize) * cols src
                             + x * cols src / width dsize))
                  (elems src) d)
           (zrange (width dsize)))
    (zrange (height dsize)).

(** Coordinates [(x, y)] of the non-zero elements. *)
Definition nonzero_points (m : Mat uchar) : list point :=
  flat_map
    (fun '(i, v) => if v =? 0 then [] else [(i mod cols m, i / cols m)])
    (combine (zrange (Z.of_nat (List.length (elems m)))) (elems m)).

Definition bbox (ps : list point) : option (Z * Z * Z * Z) :=
  match ps with
  | [] => None
  | (x, y) :: rest =>
      Some (fold_left (fun '(x0, y0, x1, y1) '(px, py) =>
                         (Z.min x0 px, Z.min y0 py, Z.max x1 px, Z.max y1 py))
                      rest (x, y, x, y))
  end.

(** The outer contour of a solid rectangle, as border following with
    [CHAIN_APPROX_SIMPLE] lists it: down the left side first. *)
Definition rectangle_contour (x0 y0 x1 y1 : Z) : contour :=
  if (x0 =? x1) && (y0 =? y1) then [(x0, y0)]
  else if x0 =? x1 then [(x0, y0); (x0, y1)]
  else if y0 =? y1 then [(x0, y0); (x1, y0)]
  else [(x0, y0); (x0, y1); (x1, y1); (x1, y0)].

(** Outer contours of a mask whose foreground is empty, one solid
    rectangle, or the three pixels [(x, y)], [(x+1, y)], [(x, y+1)]. *)
Definition simple_contours (m : Mat uchar) : list contour :=
  let ps := nonzero_points m in
  match bbox ps with
  | Some (x0, y0, x1, y1) =>
      if (x1 - x0 + 1) * (y1 - y0 + 1) =? Z.of_nat (List.length ps)
      then [rectangle_contour x0 y0 x1 y1]
      else
        match ps with
        | [(ax, ay); (bx, b_y); (c_x, c_y)] =>
            if (bx =? ax + 1) && (b_y =? ay) && (c_x =? ax) && (c_y =? ay + 1)
            then [[(ax, ay); (c_x, c_y); (bx, b_y)]] else []
        | _ => []
        end
  | None => []
  end.

Definition cross (p q : point) : Z := fst p * snd q - fst q * snd p.

Fixpoint green_sum (first : point) (c : contour) : Z :=
  match c with
  | [] => 0
  | p :: rest =>
      match rest with
      | [] => cross p first
      | q :: _ => cross p q + green_sum first rest
      end
  end.

(** The area by Green's formula, which [cv::contourArea] computes: half
    the absolute value of the sum of the cross products of consecutive
    points. *)
Definition green_area (c : contour) : double :=
  match c with
  | [] => zero
  | p :: _ => double_lit (Z.abs (green_sum p c)) 2
  end.

Definition inside (b : Z * Z * Z * Z) (p : point) : bool :=
  let '(x0, y0, x1, y1) := b in
  (x0 <=? fst p) && (fst p <=? x1) && (y0 <=? snd p) && (snd p <=? y1).

(** The edges of the closed polygon. *)
Definition edges (c : contour) : list (point * point) :=
  combine c (tl c ++ firstn 1 c).

(** On which side of the edge [p q] the point [r] lies. *)
Definition side (p q r : point) : Z :=
  (fst q - fst p) * (snd r - snd p) - (snd q - snd p) * (fst r - fst p).

(** Inside or on a convex polygon. *)
Definition in_convex (c : contour) (r : point) : bool :=
  match bbox c with
  | Some b =>
      inside b r
      && (forallb (fun '(p, q) => 0 <=? side p q r) (edges c)
          || forallb (fun '(p, q) => side p q r <=? 0) (edges c))
  | None => false
  end.

(** Filled drawing of convex contours. *)
Definition fill_convex (m : Mat uchar) (cs : list contour) : Mat uchar :=
  mkMat (rows m) (cols m)
    (map (fun '(i, v) =>
            if existsb (fun c => in_convex c (i mod cols m, i / cols m)) cs
            then 255 else v)
         (combine (zrange (Z.of_nat (List.length (elems m)))) (elems m))).

#[export] Instance cv : OpenCV := {|
  resize_samples_8UC3 := nearest_samples (0, 0, 0);
  resize_samples_8UC1 := nearest_samples 0;
  subtract_32F := fun x s => SFsub 24 128 x (float_of_double s);
  multiply_32F := fun x s => fmul x (float_of_double s);
  divide_32F := fun x s => SFdiv 24 128 x (float_of_double s);
  findContours := simple_contours;
  contourArea := green_area;
  drawContours := fill_convex;
  boxFilter := fun m ksize =>
    if (0 <? width ksize) && (0 <? height ksize) then Some m else None
|}.

(** Plane 0 read as packed BGR triples, and written back. *)
Fixpoint triples (bytes : list Z) : list pixel :=
  match bytes with
  | b :: g :: r :: rest => (b, g, r) :: triples rest
  | _ => []
  end.

Definition untriples (ps : list pixel) : list Z :=
  flat_map (fun '(b, g, r) => [b; g; r]) ps.

(** A plugin directory holding every model file. *)
#[export] Instance obs : LibObs := {|
  obs_module_file := fun name => Some (append "data/" name);
  scale_to_BGR := fun _ data _ => triples (hd [] data);
  scale_from_BGR := fun _ img => [untriples (elems img)]
|}.

(** A plugin directory holding no model file. *)
Definition obs_without_models : LibObs := {|
  obs_module_file := fun _ => None;
  scale_to_BGR := fun _ data _ => triples (hd [] data);
  scale_from_BGR := fun _ img => [untriples (elems img)]
|}.

(** A network of the given shapes whose output is identically zero. *)
Definition zero_model (inShape outShape : list Z) : OrtModel :=
  mkModel "input" "output" inShape outShape
    (fun _ => Some (repeat zero (Z.to_nat (vectorProduct outShape)))).

#[export] Instance ort : OnnxRuntime := {|
  Session_new := fun _ _ => Some (zero_model [1; 3; 2; 2] [1; 1; 2; 2])
|}.

Definition world0 : World := mkWorld 0 [].

(** A 2x2 frame and a 4x2 frame in packed BGR. *)
Definition frame_2x2 : obs_source_frame :=
  mkFrame [[10; 20; 30; 40; 50; 60; 70; 80; 90; 100; 110; 120]] [6] 2 2 VIDEO_FORMAT_BGR3.

Definition frame_4x2 : obs_source_frame :=
  mkFrame [[1; 2; 3; 4; 5; 6; 7; 8; 9; 10; 11; 12;
            13; 14; 15; 16; 17; 18; 19; 20; 21; 22; 23; 24]] [12] 4 2 VIDEO_FORMAT_BGR3.

(** Settings: the defaults with red as replacement colour and both
    refinements switched off, for either model. *)
Definition plain_settings (model : string) : obs_data :=
  mkSettings d0_5 d0_0 d0_0 255 false model.

(** A 10x10 mask with a solid block of [n] x [n] pixels at (3, 3). *)
Definition block_mask (n : Z) : Mat uchar :=
  mkMat 10 10
    (map (fun i => if inside (3, 3, 3 + n - 1, 3 + n - 1) (i mod 10, i / 10)
                   then 255 else 0)
         (zrange 100)).

(** A 2x2 mask holding grey values on both sides of the cutoff. *)
Definition grey_mask : Mat uchar := mkMat 2 2 [0; 128; 129; 255].

(** A 10x10 mask with the three pixels (3, 3), (4, 3) and (3, 4). *)
Definition corner_mask : Mat uchar :=
  mkMat 10 10
    (map (fun i => if (i =? 33) || (i =? 34) || (i =? 43) then 255 else 0)
         (zrange 100)).

(** [0.0075f]. *)
Definition f0_0075 : float := float_of_double (double_lit 75 10000).

Definition with_contourFilter (tf : background_removal_filter) (c : float) :=
  mkFilter (session tf) (inputNames tf) (outputNames tf) (inputDims tf) (outputDims tf)
    (outputTensorValues tf) (inputTensorValues tf) (threshold tf) (backgroundColor tf)
    c (smoothContour tf) (useGPU tf) (modelSelection tf)
    (scalerToBGR tf) (scalerFromBGR tf) (modelFilepath tf).

Definition with_smoothContour (tf : background_removal_filter) (c : float) :=
  mkFilter (session tf) (inputNames tf) (outputNames tf) (inputDims tf) (outputDims tf)
    (outputTensorValues tf) (inputTensorValues tf) (threshold tf) (backgroundColor tf)
    (contourFilter tf) c (useGPU tf) (modelSelection tf)
    (scalerToBGR tf) (scalerFromBGR tf) (modelFilepath tf).

Definition with_inputDims (tf : background_removal_filter) (d : list Z) :=
  mkFilter (session tf) (inputNames tf) (outputNames tf) d (outputDims tf)
    (outputTensorValues tf) (inputTensorValues tf) (threshold tf) (backgroundColor tf)
    (contourFilter tf) (smoothContour tf) (useGPU tf) (modelSelection tf)
    (scalerToBGR tf) (scalerFromBGR tf) (modelFilepath tf).

(** The filter created with SINet and the refinements off, and the same
    filter after it has rendered the 2x2 frame once. *)
Definition created : background_removal_filter * World :=
  filter_create (plain_settings MODEL_SINET) world0.

Definition after_first_render : background_removal_filter * World :=
  match filter_render (fst created) frame_2x2 (snd created) with
  | Returned (_, tf, w) => (tf, w)
  | Faulted _ => created
  end.

(** The settings of [created] with another threshold, 0.25. *)
Definition other_threshold : obs_data :=
  mkSettings (double_lit 1 4) d0_0 d0_0 255 false MODEL_SINET.

(** An all-zero 2x2 network output, a 2x2 image, and the filter created
    with MODNet and the refinements off. *)
Definition zeros_2x2 : Mat float := mkMat 2 2 (repeat zero 4).
Definition image_2x2 : Mat pixel :=
  mkMat 2 2 [(10, 20, 30); (40, 50, 60); (70, 80, 90); (100, 110, 120)].
Definition modnet_filter : background_removal_filter :=
  fst (filter_create (plain_settings MODEL_MODNET) world0).

End Ref.

(** The exact rational value of a finite floating-point number. *)

Definition exact_value (x : spec_float) : Q :=
  match x with
  | S754_finite s m e =>
      (inject_Z (cond_Zopp s (Zpos m)) * Qpower 2 e)%Q
  | _ => 0%Q
  end.

(** ** Vocabulary of the statements *)

(** Every element is 0 or 255. *)
Definition binary_mask (m : Mat uchar) : Prop :=
  Forall (fun v => v = 0 \/ v = 255) (elems m).




(** Every object the structure holds was allocated before [n]. *)
Definition handles_below (n : nat) (tf : background_removal_filter) : Prop :=
  (forall s, session tf = Some s -> (session_handle s < n)%nat)
  /\ (forall s, scalerToBGR tf = Some s -> (vs_handle s < n)%nat)
  /\ (forall s, scalerFromBGR tf = Some s -> (vs_handle s < n)%nat).

(** Contracts of the OpenCV routines that statements below rely on. *)
Section Contracts.
Context {cv : OpenCV}.

End Contracts.

(** ** The host's view of the filter

    [background_removal_filter_info] (lines 445-456) hands libobs the
    callbacks; after [filter_create] the host calls [filter_update] and
    [filter_render] in any order and finally [filter_destroy]. *)

(** [filter_destroy] (lines 433-441): the converters are destroyed and the
    structure is released with [bfree]. *)
Definition filter_destroy (data : option background_removal_filter) (w : World)
  : World :=
  match data with
  | Some tf => snd (destroyScalers tf w)
  | None => w
  end.

Inductive host_call : Type :=
| Host_update (settings : obs_data)
| Host_render (frame : obs_source_frame).

(** A sequence of callbacks; a render that does not return ends it. *)
Fixpoint run_filter {cv : OpenCV} {obs : LibObs} {ort : OnnxRuntime}
    (ops : list host_call) (tf : background_removal_filter) (w : World)
  : outcome (background_removal_filter * World) :=
  match ops with
  | [] => Returned (tf, w)
  | Host_update settings :: rest =>
      let '(tf, w) := filter_update tf settings w in
      run_filter rest tf w
  | Host_render frame :: rest =>
      '(_, tf, w) <- filter_render tf frame w ;;
      run_filter rest tf w
  end.

(** The converters created and not yet destroyed, by handle, read off the
    calls (most recent first). *)
Fixpoint live_scalers (cs : list call) : list nat :=
  match cs with
  | [] => []
  | Call_scaler_create s :: rest => vs_handle s :: live_scalers rest
  | Call_scaler_destroy s :: rest => remove Nat.eq_dec (vs_handle s) (live_scalers rest)
  | _ :: rest => live_scalers rest
  end.

(** The fields [filter_update] reads from the settings. *)
Definition configuration (tf : background_removal_filter)
  : float * pixel * float * float * bool * string :=
  (threshold tf, backgroundColor tf, contourFilter tf, smoothContour tf, useGPU tf,
   modelSelection tf).

(** What [createOrtSession] caches of the loaded model. *)
Definition loaded_model (tf : background_removal_filter)
  : option Session * list string * list string * list Z * list Z :=
  (session tf, inputNames tf, outputNames tf, inputDims tf, outputDims tf).

(** The converters the structure holds are exactly the live ones. *)
Definition converters_balanced (tf : background_removal_filter) (w : World) : Prop :=
  (scalerToBGR tf = None /\ scalerFromBGR tf = None /\ live_scalers (calls w) = [])
  \/ exists a b,
      scalerToBGR tf = Some a /\ scalerFromBGR tf = Some b
      /\ vs_handle a <> vs_handle b
      /\ live_scalers (calls w) = [vs_handle b; vs_handle a].

(** Everything in the structure but the two converters. *)
Definition payload (tf : background_removal_filter) :=
  (configuration tf, loaded_model tf, inputTensorValues tf, outputTensorValues tf,
   modelFilepath tf).


Definition is_some {A : Type} (o : option A) : bool :=
  match o with Some _ => true | None => false end.

(** The conditions under which no statement of [filter_render] itself
    faults: both shapes have four entries, a session is held, and the two
    casts of the enabled refinements are defined.  Whether the
    collaborators return is not part of it. *)
Definition render_ready (tf : background_removal_filter) : bool :=
  match nth_error (inputDims tf) 3, session tf,
        nth_error (outputDims tf) 2, nth_error (outputDims tf) 3 with
  | Some _, Some _, Some r, Some c =>
      (negb (contour_enabled tf)
       || is_some (cast_int64 (fmul (float_of_Z (to_int r * to_int c)) (contourFilter tf))))
      && (negb (smooth_enabled tf) || is_some (k_size tf))
  | _, _, _, _ => false
  end.

(** The product of a shape in unbounded integers. *)
Definition shape_product (v : list Z) : Z := fold_left Z.mul v 1.

(** The channels of a pixel, by index. *)
Definition channel (k : nat) (p : pixelf) : float :=
  match k with
  | O => fst (fst p)
  | S O => snd (fst p)
  | _ => snd p
  end.

(** [1.0f]. *)
Definition f1_0 : float := float_of_Z 1.

(** [cv::resize] writes one sample per element of the requested size. *)
Definition resize_fills_size {cv : OpenCV} : Prop :=
  forall (m : Mat pixel) (sz : Size),
    0 <= width sz -> 0 <= height sz ->
    List.length (resize_samples_8UC3 m sz) = Z.to_nat (width sz * height sz).

(** Inputs for running the statements below. *)
Module Cases.


(** A replacement colour with bytes 0x11, 0x22, 0x33 below an alpha byte. *)
Definition tinted : obs_data :=
  mkSettings d0_5 d0_0 d0_0 0xFF332211 false MODEL_SINET.

Definition session_story : list host_call :=
  [Host_render Ref.frame_2x2; Host_update Ref.other_threshold;
   Host_render Ref.frame_4x2; Host_render Ref.frame_2x2].

Definition pixelf_image : Mat pixelf :=
  mkMat 1 2 [(float_of_Z 1, float_of_Z 2, float_of_Z 3);
             (float_of_Z 4, float_of_Z 5, float_of_Z 6)].

(** The first render of the created filter, and the state the filter is
    in at the end of [session_story]. *)
Definition first_render : obs_source_frame * background_removal_filter * World :=
  match @filter_render Ref.cv Ref.obs (fst Ref.created) Ref.frame_2x2 (snd Ref.created) with
  | Returned x => x
  | Faulted _ => (Ref.frame_2x2, fst Ref.created, snd Ref.created)
  end.

Definition second_render : obs_source_frame * background_removal_filter * World :=
  match @filter_render Ref.cv Ref.obs (snd (fst first_render)) Ref.frame_4x2
          (snd first_render) with
  | Returned x => x
  | Faulted _ => first_render
  end.

Definition story_end : background_removal_filter * World :=
  match @run_filter Ref.cv Ref.obs Ref.ort session_story (fst Ref.created)
          (snd Ref.created) with
  | Returned x => x
  | Faulted _ => Ref.created
  end.

(** Two frames wider than the first one, rendered after it. *)
Definition two_wider_frames_end : background_removal_filter * World :=
  match @run_filter Ref.cv Ref.obs Ref.ort (map Host_render [Ref.frame_4x2; Ref.frame_4x2])
          (snd (fst first_render)) (snd first_render) with
  | Returned x => x
  | Faulted _ => Ref.created
  end.

(** The created filter with the default refinements, 0.05 and 0.5. *)
Definition default_refinements : background_removal_filter :=
  Ref.with_smoothContour
    (Ref.with_contourFilter (fst Ref.created) (float_of_double d0_05))
    (float_of_double d0_5).

End Cases.

(** * Properties of the pipeline *)

(** ** The error monad and the vectors *)

Lemma bind_returned {A B : Type} (c : outcome A) (k : A -> outcome B) (b : B) :
  bind c k = Returned b -> exists a, c = Returned a /\ k a = Returned b.
Proof.
  destruct c as [a | f]; simpl; intros H.
  - exists a; split; [reflexivity | exact H].
  - discriminate H.
Qed.

Lemma vector_at_cons4 {A : Type} (a b c d : A) (rest : list A) :
  vector_at (a :: b :: c :: d :: rest) 2 = Returned c
  /\ vector_at (a :: b :: c :: d :: rest) 3 = Returned d.
Proof. split; reflexivity. Qed.


(** ** Masks *)

Lemma compare_gt_8U_binary (m : Mat uchar) (s : Z) : binary_mask (compare_gt_8U m s).
Proof.
  unfold binary_mask, compare_gt_8U, mat_map; simpl.
  apply Forall_forall; intros v Hv.
  apply in_map_iff in Hv; destruct Hv as [x [Hx _]].
  destruct (s <? x); subst v; auto.
Qed.



Section Lifecycle.
Context {cv : OpenCV} {obs : LibObs} {ort : OnnxRuntime}.

(** *** What the life-cycle functions leave alone *)

Lemma destroyScalers_spec (tf : background_removal_filter) (w : World) :
  scalerToBGR (fst (destroyScalers tf w)) = None
  /\ scalerFromBGR (fst (destroyScalers tf w)) = None
  /\ session (fst (destroyScalers tf w)) = session tf
  /\ inputDims (fst (destroyScalers tf w)) = inputDims tf
  /\ next_handle (snd (destroyScalers tf w)) = next_handle w.
Proof.
  unfold destroyScalers; simpl.
  destruct (scalerToBGR tf), (scalerFromBGR tf); simpl; auto.
Qed.

Lemma createOrtSession_failed (tf : background_removal_filter) (w : World) :
  (obs_module_file (modelSelection tf) = None
   \/ exists p, obs_module_file (modelSelection tf) = Some p
                /\ Session_new p (useGPU tf) = None) ->
  session (fst (createOrtSession tf w)) = session tf
  /\ inputDims (fst (createOrtSession tf w)) = inputDims tf
  /\ outputDims (fst (createOrtSession tf w)) = outputDims tf
  /\ snd (createOrtSession tf w) = w.
Proof.
  unfold createOrtSession; intros [H | [p [H1 H2]]].
  - rewrite H; simpl; auto.
  - rewrite H1; simpl; rewrite H2; simpl; auto.
Qed.

Lemma initializeScalers_spec (sz : Size) (fmt : video_format)
    (tf : background_removal_filter) (w : World) :
  let r := initializeScalers sz fmt tf w in
  let w0 := snd (destroyScalers tf w) in
  scalerToBGR (fst r)
  = Some (mkScaler (next_handle w0)
            (mkInfo VIDEO_FORMAT_BGR3 (width sz) (height sz))
            (mkInfo fmt (width sz) (height sz)))
  /\ scalerFromBGR (fst r)
    = Some (mkScaler (S (next_handle w0))
              (mkInfo fmt (width sz) (height sz))
              (mkInfo VIDEO_FORMAT_BGR3 (width sz) (height sz)))
  /\ session (fst r) = session tf
  /\ inputDims (fst r) = inputDims tf
  /\ next_handle (snd r) = S (S (next_handle w0)).
Proof.
  unfold initializeScalers.
  destruct (destroyScalers tf w) as [tf0 w0] eqn:E.
  pose proof (destroyScalers_spec tf w) as D; rewrite E in D; simpl in D.
  destruct D as (_ & _ & Hs & Hd & _).
  simpl; repeat split; assumption.
Qed.

Lemma convertFrameToBGR_session (frame : obs_source_frame)
    (tf : background_removal_filter) (w : World) :
  session (snd (fst (convertFrameToBGR frame tf w))) = session tf
  /\ inputDims (snd (fst (convertFrameToBGR frame tf w))) = inputDims tf.
Proof.
  unfold convertFrameToBGR.
  destruct (scalerToBGR tf) as [s |] eqn:E.
  - rewrite E; simpl; auto.
  - pose proof (initializeScalers_spec (frame_size frame) (frame_format frame) tf w) as I.
    destruct (initializeScalers (frame_size frame) (frame_format frame) tf w) as [tf1 w1].
    simpl in I; destruct I as (H1 & _ & Hs & Hd & _).
    rewrite H1; simpl; auto.
Qed.
End Lifecycle.

Section RenderFaults.
Context {cv : OpenCV} {obs : LibObs} {ort : OnnxRuntime}.

(** Line 382 dereferences [tf->session] without a test: with no session
    a render call never returns a frame. *)
Lemma render_without_session (tf : background_removal_filter)
    (frame : obs_source_frame) (w : World) :
  session tf = None ->
  filter_render tf frame w = Faulted OutOfRange
  \/ filter_render tf frame w = Faulted NullSession.
Proof.
  intros Hs; unfold filter_render.
  destruct (convertFrameToBGR frame tf w) as [[img tf1] w1] eqn:E.
  pose proof (convertFrameToBGR_session frame tf w) as [Hs1 _].
  rewrite E in Hs1; simpl in Hs1; rewrite Hs in Hs1.
  destruct (resize_to_network_input tf1 (cvtColor_BGR2RGB img)) as [r | f] eqn:R.
  - right; cbn [bind]; unfold run_inference, set_inputTensorValues.
    cbn [session]; rewrite Hs1; reflexivity.
  - left; cbn [bind].
    unfold resize_to_network_input in R.
    destruct (vector_at (inputDims tf1) 2) as [d2 | f2] eqn:V2; simpl in R.
    + destruct (vector_at (inputDims tf1) 3) as [d3 | f3] eqn:V3; simpl in R;
        [discriminate R |].
      unfold vector_at in V3; destruct (nth_error (inputDims tf1) 3);
        simpl in V3; [discriminate V3 |].
      congruence.
    + unfold vector_at in V2; destruct (nth_error (inputDims tf1) 2);
        simpl in V2; [discriminate V2 |].
      congruence.
Qed.

Lemma render_without_dims (tf : background_removal_filter)
    (frame : obs_source_frame) (w : World) :
  inputDims tf = [] -> filter_render tf frame w = Faulted OutOfRange.
Proof.
  intros Hd; unfold filter_render.
  destruct (convertFrameToBGR frame tf w) as [[img tf1] w1] eqn:E.
  pose proof (convertFrameToBGR_session frame tf w) as [_ Hd1].
  rewrite E in Hd1; simpl in Hd1; rewrite Hd in Hd1.
  unfold resize_to_network_input; rewrite Hd1; reflexivity.
Qed.

(** C1 (defect of the code).  When the model cannot be loaded at creation
    (the file is not found, or the session constructor throws), the
    session is absent; a render call then does not hand the frame back:
    it leaves through [std::out_of_range] at [inputDims.at(2)], before
    even reaching the unguarded [tf->session->Run]. *)
Theorem render_after_failed_load_faults (settings : obs_data) (w w' : World)
    (frame : obs_source_frame) :
  (obs_module_file (get_model_select settings) = None
   \/ exists p, obs_module_file (get_model_select settings) = Some p
                /\ Session_new p (get_useGPU settings) = None) ->
  session (fst (filter_create settings w)) = None
  /\ filter_render (fst (filter_create settings w)) frame w' = Faulted OutOfRange.
Proof.
  intros Hfail.
  unfold filter_create, filter_update; simpl.
  match goal with
  | |- context [createOrtSession ?t ?x] =>
      pose proof (createOrtSession_failed t x Hfail) as (Hs & Hd & _ & _)
  end.
  simpl in Hs, Hd; split; [exact Hs |].
  apply render_without_dims; exact Hd.
Qed.

(** C5 (defect of the code).  The image handed to the network has
    [inputDims[3]] rows and [inputDims[2]] columns: [cv::Size] takes the
    width first, and line 362 passes the NCHW height there. *)
Theorem network_input_resize_swaps_dims (tf : background_removal_filter)
    (imageRGB : Mat pixel) (n c h w : Z) (rest : list Z) :
  inputDims tf = n :: c :: h :: w :: rest ->
  exists resized,
    resize_to_network_input tf imageRGB = Returned resized
    /\ rows resized = to_int w /\ cols resized = to_int h.
Proof.
  intros Hd; unfold resize_to_network_input; rewrite Hd; simpl.
  eexists; split; [reflexivity |]; simpl; auto.
Qed.

(** The sibling path of lines 388-391 reads the same two positions in
    the NCHW order. *)
Lemma output_image_geometry (tf : background_removal_filter) (n c h w : Z)
    (rest : list Z) :
  outputDims tf = n :: c :: h :: w :: rest ->
  exists img,
    output_image tf = Returned img /\ rows img = to_int h /\ cols img = to_int w.
Proof.
  intros Hd; unfold output_image; rewrite Hd; simpl.
  eexists; split; [reflexivity |]; simpl; auto.
Qed.
End RenderFaults.

Section Instances.
Context {cv : OpenCV} {obs : LibObs} {ort : OnnxRuntime}.

(** *** Object identities stay below the allocator *)

Lemma handles_below_mono (n m : nat) (tf : background_removal_filter) :
  (n <= m)%nat -> handles_below n tf -> handles_below m tf.
Proof.
  intros Hle (H1 & H2 & H3); repeat split; intros s Hs;
    [apply H1 in Hs | apply H2 in Hs | apply H3 in Hs]; lia.
Qed.

(** C3 (amended).  Every settings update, whatever it changes, leaves
    both converters destroyed and, when the model file is found and the
    session constructor succeeds, installs a newly constructed session:
    the session differs from the one held before, and the converter the
    next render call uses is a new instance as well. *)
Theorem filter_update_rebuilds_everything (tf : background_removal_filter)
    (settings : obs_data) (w : World) (p : string) (model : OrtModel) :
  handles_below (next_handle w) tf ->
  obs_module_file (get_model_select settings) = Some p ->
  Session_new p (get_useGPU settings) = Some model ->
  let tf' := fst (filter_update tf settings w) in
  let w' := snd (filter_update tf settings w) in
  scalerToBGR tf' = None
  /\ scalerFromBGR tf' = None
  /\ session tf' = Some (mkSession (next_handle w) model)
  /\ session tf' <> session tf
  /\ forall frame,
      exists s, scalerToBGR (snd (fst (convertFrameToBGR frame tf' w'))) = Some s
                /\ scalerToBGR tf <> Some s.
Proof.
  intros (Hsess & Hto & _) Hfile Hnew tf' w'.
  subst tf' w'; unfold filter_update.
  match goal with
  | |- context [destroyScalers ?t w] =>
      pose proof (destroyScalers_spec t w) as (D1 & D2 & _ & _ & D5);
      destruct (destroyScalers t w) as [tf0 w0] eqn:E;
      assert (Hsel : modelSelection tf0 = get_model_select settings)
        by (unfold destroyScalers in E; inversion E; reflexivity);
      assert (Hgpu : useGPU tf0 = get_useGPU settings)
        by (unfold destroyScalers in E; inversion E; reflexivity)
  end.
  simpl in D1, D2, D5.
  unfold createOrtSession; rewrite Hsel, Hfile; simpl; rewrite Hgpu, Hnew.
  unfold fresh_handle; simpl.
  rewrite D1, D2, D5.
  repeat split.
  - intros Heq; symmetry in Heq; apply Hsess in Heq; simpl in Heq; lia.
  - intros frame; unfold convertFrameToBGR; simpl.
    eexists; split; [reflexivity |].
    intros Hold; apply Hto in Hold; simpl in Hold; lia.
Qed.

(** C4 (amended).  A converter that is present is used as it is, for a
    frame of any geometry; only when it is absent are both converters
    built, together, with the geometry of the incoming frame. *)
Theorem converters_built_only_when_absent (frame : obs_source_frame)
    (tf : background_removal_filter) (w : World) :
  (forall s, scalerToBGR tf = Some s ->
     convertFrameToBGR frame tf w
     = (mkMat (frame_height frame) (frame_width frame)
          (scale_to_BGR s (frame_data frame) (frame_linesize frame)),
        tf, record_call (scale_call s frame) w))
  /\ (scalerToBGR tf = None ->
      exists h1 h2,
        let native := mkInfo (frame_format frame) (frame_width frame) (frame_height frame) in
        let bgr := mkInfo VIDEO_FORMAT_BGR3 (frame_width frame) (frame_height frame) in
        let tf' := snd (fst (convertFrameToBGR frame tf w)) in
        scalerToBGR tf' = Some (mkScaler h1 bgr native)
        /\ scalerFromBGR tf' = Some (mkScaler h2 native bgr)
        /\ In (scale_call (mkScaler h1 bgr native) frame)
             (calls (snd (convertFrameToBGR frame tf w)))).
Proof.
  split.
  - intros s Hs; unfold convertFrameToBGR; rewrite Hs; simpl; rewrite Hs; reflexivity.
  - intros Hnone; unfold convertFrameToBGR; rewrite Hnone.
    pose proof (initializeScalers_spec (frame_size frame) (frame_format frame) tf w) as I.
    destruct (initializeScalers (frame_size frame) (frame_format frame) tf w) as [tf1 w1].
    simpl in I; destruct I as (I1 & I2 & _).
    rewrite I1; simpl.
    eexists; eexists; split; [exact I1 |]; split; [exact I2 |].
    left; reflexivity.
Qed.
End Instances.

Section Postprocessing.
Context {cv : OpenCV}.

Lemma zero_not_enabled (s : bool) :
  gt (double_of_float (S754_zero s)) d0_0 = false.
Proof. destruct s; reflexivity. Qed.

Lemma contour_processing_skipped (tf : background_removal_filter) (s : bool)
    (m : Mat uchar) :
  contourFilter tf = S754_zero s -> contour_processing tf m = Returned m.
Proof.
  intros Hc; unfold contour_processing, contour_enabled.
  rewrite Hc, zero_not_enabled; reflexivity.
Qed.

Lemma smooth_mask_skipped (tf : background_removal_filter) (s : bool)
    (m : Mat uchar) :
  smoothContour tf = S754_zero s -> smooth_mask tf m = Returned m.
Proof.
  intros Hs; unfold smooth_mask, smooth_enabled.
  rewrite Hs, zero_not_enabled; reflexivity.
Qed.

Lemma postprocess_skipping (tf : background_removal_filter)
    (outputImage : Mat float) (frameSize : Size) (s1 s2 : bool) :
  contourFilter tf = S754_zero s1 ->
  smoothContour tf = S754_zero s2 ->
  postprocess tf outputImage frameSize
  = Returned (cv_resize_8UC1 (threshold_mask tf outputImage) frameSize).
Proof.
  intros Hc Hs; unfold postprocess.
  rewrite (contour_processing_skipped tf s1 _ Hc); simpl.
  apply (smooth_mask_skipped tf s2 _ Hs).
Qed.

(** C7.  With [contourFilter = 0] and [smoothContour = 0] both
    refinement branches are skipped and leave their mask untouched, so
    the post-processed mask is the thresholded mask resized to the frame
    size and nothing else. *)
Theorem refinements_off_give_raw_mask (tf : background_removal_filter)
    (outputImage : Mat float) (frameSize : Size) (s1 s2 : bool) :
  contourFilter tf = S754_zero s1 ->
  smoothContour tf = S754_zero s2 ->
  (forall m, contour_processing tf m = Returned m)
  /\ (forall m, smooth_mask tf m = Returned m)
  /\ postprocess tf outputImage frameSize
     = Returned (cv_resize_8UC1 (threshold_mask tf outputImage) frameSize).
Proof.
  intros Hc Hs; repeat split.
  - intros m; exact (contour_processing_skipped tf s1 m Hc).
  - intros m; exact (smooth_mask_skipped tf s2 m Hs).
  - exact (postprocess_skipping tf outputImage frameSize s1 s2 Hc Hs).
Qed.

(** C8.  When the smoothing branch is taken, the mask handed to the
    box filter is the one resized to the frame size, and the kernel is
    the square of side [(int)(100 * smoothContour)].  When the filter
    returns an image, the smoothed mask has its geometry, holds 255 at
    each pixel where the blurred value is above 128 and 0 at every other
    pixel, and so holds only these two values; when the filter throws,
    so does the step. *)
Theorem smoothing_rebinarizes (tf : background_removal_filter)
    (backgroundMask : Mat uchar) (k : Z) :
  gt (double_of_float (smoothContour tf)) d0_0 = true ->
  cast_int (fmul (float_of_Z 100) (smoothContour tf)) = Some k ->
  (forall blurred,
     boxFilter backgroundMask (mkSize k k) = Some blurred ->
     exists smoothed,
       smooth_mask tf backgroundMask = Returned smoothed
       /\ rows smoothed = rows blurred
       /\ cols smoothed = cols blurred
       /\ List.length (elems smoothed) = List.length (elems blurred)
       /\ (forall i v, nth_error (elems blurred) i = Some v ->
             (128 < v -> nth_error (elems smoothed) i = Some 255)
             /\ (v <= 128 -> nth_error (elems smoothed) i = Some 0))
       /\ binary_mask smoothed)
  /\ (boxFilter backgroundMask (mkSize k k) = None ->
      smooth_mask tf backgroundMask = Faulted CvException)
  /\ (forall outputImage frameSize native,
        contour_processing tf (threshold_mask tf outputImage) = Returned native ->
        postprocess tf outputImage frameSize
        = smooth_mask tf (cv_resize_8UC1 native frameSize)
        /\ rows (cv_resize_8UC1 native frameSize) = height frameSize
        /\ cols (cv_resize_8UC1 native frameSize) = width frameSize).
Proof.
  intros Hen Hk.
  assert (Hstep : smooth_mask tf backgroundMask
                  = (blurred <- of_option CvException
                                  (boxFilter backgroundMask (mkSize k k)) ;;
                     Returned (compare_gt_8U blurred 128))).
  { unfold smooth_mask, smooth_enabled, k_size; rewrite Hen, Hk; reflexivity. }
  split.
  - intros blurred Hb; rewrite Hb in Hstep; cbn [of_option bind] in Hstep.
    exists (compare_gt_8U blurred 128).
    split; [exact Hstep |].
    split; [reflexivity |]; split; [reflexivity |].
    split; [apply length_map |].
    split; [| apply compare_gt_8U_binary].
    intros i v Hv; unfold compare_gt_8U, mat_map; cbn [elems].
    rewrite nth_error_map; unfold uchar in *; rewrite Hv; cbn [option_map].
    split; intros Hcmp.
    + apply Z.ltb_lt in Hcmp; rewrite Hcmp; reflexivity.
    + apply Z.ltb_ge in Hcmp; rewrite Hcmp; reflexivity.
  - split; [intros Hb; rewrite Hb in Hstep; exact Hstep |].
    intros outputImage frameSize native Hnative.
    unfold postprocess; rewrite Hnative; repeat split.
Qed.

(** C6 (amended).  With [0 < contourFilter < 1] the step traces the
    outer contours and keeps exactly those whose [cv::contourArea] is
    strictly greater than the integer
    [(int64_t)(total * contourFilter)], the [float] product truncated
    toward zero; the mask is cleared and the kept contours are drawn
    filled on it. *)
Theorem contour_filter_keeps_above_truncated_threshold
    (tf : background_removal_filter) (backgroundMask : Mat uchar) (thr : Z) :
  contour_enabled tf = true ->
  cast_int64 (fmul (float_of_Z (total backgroundMask)) (contourFilter tf)) = Some thr ->
  exists kept,
    contour_processing tf backgroundMask
    = Returned (drawContours (setTo_zero backgroundMask) kept)
    /\ (forall c, In c kept <->
                  In c (findContours backgroundMask)
                  /\ gt (contourArea c) (double_of_Z thr) = true).
Proof.
  intros Hen Hthr.
  exists (filter (contour_kept thr) (findContours backgroundMask)); split.
  - unfold contour_processing, contourSizeThreshold; rewrite Hen, Hthr; reflexivity.
  - intros c; rewrite filter_In; unfold contour_kept; tauto.
Qed.

End Postprocessing.

Section Polarity.
Context {cv : OpenCV}.







End Polarity.

(** ** Rounding of binary32 and binary64 operations

    Facts about the shift-and-round of [SpecFloat] needed to bound
    [100 * smoothContour]. *)

Lemma digits2_pos_bounds (p : positive) :
  2 ^ (Zpos (digits2_pos p) - 1) <= Zpos p < 2 ^ Zpos (digits2_pos p).
Proof.
  induction p as [p IH | p IH |]; cbn [digits2_pos].
  - rewrite Pos2Z.inj_succ, (Pos2Z.inj_xI p).
    remember (Zpos (digits2_pos p)) as d eqn:Ed.
    assert (Hd : 0 < d) by (subst d; apply Pos2Z.is_pos).
    replace (Z.succ d - 1) with (Z.succ (d - 1)) by lia.
    rewrite !Z.pow_succ_r by lia.
    generalize dependent (2 ^ (d - 1)); generalize dependent (2 ^ d); intros; lia.
  - rewrite Pos2Z.inj_succ, (Pos2Z.inj_xO p).
    remember (Zpos (digits2_pos p)) as d eqn:Ed.
    assert (Hd : 0 < d) by (subst d; apply Pos2Z.is_pos).
    replace (Z.succ d - 1) with (Z.succ (d - 1)) by lia.
    rewrite !Z.pow_succ_r by lia.
    generalize dependent (2 ^ (d - 1)); generalize dependent (2 ^ d); intros; lia.
  - simpl. lia.
Qed.

Lemma shr_1_m (mrs : shr_record) :
  0 <= shr_m mrs -> shr_m (shr_1 mrs) = shr_m mrs / 2.
Proof.
  destruct mrs as [m r s]; simpl; intros Hm.
  destruct m as [| p | p]; [reflexivity | | lia].
  destruct p as [p | p |]; simpl.
  - rewrite (Pos2Z.inj_xI p). apply Z.div_unique with 1; lia.
  - rewrite (Pos2Z.inj_xO p). apply Z.div_unique with 0; lia.
  - reflexivity.
Qed.

Lemma iter_pos_shr_1 (n : positive) : forall mrs,
  0 <= shr_m mrs ->
  shr_m (SpecFloat.iter_pos shr_1 n mrs) = shr_m mrs / 2 ^ Zpos n.
Proof.
  induction n as [n IH | n IH |]; intros mrs Hm; simpl SpecFloat.iter_pos.
  - assert (H1 : 0 <= shr_m (shr_1 mrs)) by (rewrite shr_1_m by assumption; apply Z.div_pos; lia).
    assert (H2 : 0 <= shr_m (SpecFloat.iter_pos shr_1 n (shr_1 mrs)))
      by (rewrite IH by assumption; apply Z.div_pos; [assumption | apply Z.pow_pos_nonneg; lia]).
    rewrite IH, IH, shr_1_m by assumption.
    rewrite !Z.div_div by (try apply Z.pow_pos_nonneg; lia).
    f_equal. rewrite (Pos2Z.inj_xI n).
    replace (2 * Zpos n + 1) with (1 + Zpos n + Zpos n) by lia.
    rewrite !Z.pow_add_r by lia. lia.
  - assert (H2 : 0 <= shr_m (SpecFloat.iter_pos shr_1 n mrs))
      by (rewrite IH by assumption; apply Z.div_pos; [assumption | apply Z.pow_pos_nonneg; lia]).
    rewrite IH, IH by assumption.
    rewrite !Z.div_div by (try apply Z.pow_pos_nonneg; lia).
    f_equal. rewrite (Pos2Z.inj_xO n).
    replace (2 * Zpos n) with (Zpos n + Zpos n) by lia.
    rewrite !Z.pow_add_r by lia. lia.
  - rewrite shr_1_m by assumption. reflexivity.
Qed.

Lemma round_nearest_even_range (m : Z) (l : location) :
  m <= round_nearest_even m l <= m + 1.
Proof.
  destruct l as [| c]; simpl; [lia |].
  destruct c; [destruct (Z.even m) | |]; lia.
Qed.

Lemma shr_exact_m (m e n : Z) :
  0 <= m ->
  shr_m (fst (shr (shr_record_of_loc m loc_Exact) e n)) = m / 2 ^ Z.max n 0
  /\ snd (shr (shr_record_of_loc m loc_Exact) e n) = e + Z.max n 0.
Proof.
  intros Hm; destruct n as [| p | p]; simpl.
  - rewrite Z.div_1_r; split; lia.
  - rewrite iter_pos_shr_1 by (simpl; assumption); simpl; split; [| lia].
    reflexivity.
  - rewrite Z.div_1_r; split; lia.
Qed.

Lemma shr_exact_n0 (m e n : Z) :
  n <= 0 -> shr (shr_record_of_loc m loc_Exact) e n = (Build_shr_record m false false, e).
Proof. destruct n; simpl; intros; try reflexivity; lia. Qed.

Lemma pow2_lt_inv (a b : Z) : 0 <= a -> 2 ^ a < 2 ^ b -> a < b.
Proof.
  intros Ha H. destruct (Z_lt_le_dec a b) as [L | G]; [exact L |].
  destruct (Z_lt_le_dec b 0) as [Lb | Gb].
  - rewrite (Z.pow_neg_r 2 b Lb) in H. pose proof (Z.pow_pos_nonneg 2 a). lia.
  - pose proof (Z.pow_le_mono_r 2 b a). lia.
Qed.

Lemma round_aux_below_one (P : positive) (ex : Z) :
  Zpos P + 2 ^ Z.max (fexp 24 128 (Zpos (digits2_pos P) + ex) - ex) 0 < 2 ^ (- ex) ->
  trunc (binary_round_aux 24 128 false (Zpos P) ex loc_Exact) = Some 0.
Proof.
  set (n := fexp 24 128 (Zpos (digits2_pos P) + ex) - ex).
  intros Hb.
  assert (Hn0 : 0 <= Z.max n 0) by lia.
  assert (Hpn : 0 < 2 ^ Z.max n 0) by (apply Z.pow_pos_nonneg; lia).
  assert (He1 : ex + Z.max n 0 < 0).
  { assert (2 ^ Z.max n 0 < 2 ^ (- ex)) by lia.
    apply pow2_lt_inv in H; lia. }
  unfold binary_round_aux, shr_fexp.
  change (Zdigits2 (Zpos P)) with (Zpos (digits2_pos P)); fold n.
  destruct (shr (shr_record_of_loc (Zpos P) loc_Exact) ex n) as [mrs1 e1] eqn:E1.
  pose proof (shr_exact_m (Zpos P) ex n ltac:(lia)) as [Hm1 He1'].
  rewrite E1 in Hm1, He1'; simpl in Hm1, He1'.
  set (m2 := round_nearest_even (shr_m mrs1) (loc_of_shr_record mrs1)).
  assert (Hm2 : 0 <= m2 < 2 ^ (- e1)).
  { pose proof (round_nearest_even_range (shr_m mrs1) (loc_of_shr_record mrs1)) as R.
    fold m2 in R.
    assert (0 <= shr_m mrs1) by (rewrite Hm1; apply Z.div_pos; lia).
    split; [lia |].
    rewrite He1'.
    destruct (Z_le_gt_dec n 0) as [Ln | Gn].
    - assert (Em : shr_m mrs1 = Zpos P).
      { rewrite shr_exact_n0 in E1 by assumption. inversion E1; reflexivity. }
      assert (El : loc_of_shr_record mrs1 = loc_Exact).
      { rewrite shr_exact_n0 in E1 by assumption. inversion E1; reflexivity. }
      unfold m2; rewrite Em, El; simpl.
      replace (Z.max n 0) with 0 in * by lia.
      change (2 ^ 0) with 1 in Hb. rewrite Z.add_0_r. lia.
    - assert (shr_m mrs1 < 2 ^ (- (ex + Z.max n 0)) - 1); [| lia].
      rewrite Hm1. apply Z.div_lt_upper_bound; [lia |].
      assert (2 ^ (- ex) = 2 ^ Z.max n 0 * 2 ^ (- (ex + Z.max n 0))).
      { rewrite <- Z.pow_add_r by lia. f_equal. lia. }
      nia. }
  destruct (shr (shr_record_of_loc m2 loc_Exact) e1 (fexp 24 128 (Zdigits2 m2 + e1) - e1))
    as [mrs3 e3] eqn:E3.
  set (n2 := fexp 24 128 (Zdigits2 m2 + e1) - e1) in *.
  pose proof (shr_exact_m m2 e1 n2 ltac:(lia)) as [Hm3 He3].
  rewrite E3 in Hm3, He3; simpl in Hm3, He3.
  assert (Hpn2 : 0 < 2 ^ Z.max n2 0) by (apply Z.pow_pos_nonneg; lia).
  destruct (shr_m mrs3) as [| m3 | m3] eqn:Em3.
  - reflexivity.
  - assert (Hge : 2 ^ Z.max n2 0 <= m2).
    { destruct (Z_lt_le_dec m2 (2 ^ Z.max n2 0)) as [L | G]; [| exact G].
      rewrite Z.div_small in Hm3 by lia. discriminate Hm3. }
    assert (Hn2 : Z.max n2 0 < - e1) by (apply pow2_lt_inv; lia).
    assert (He3neg : e3 < 0) by lia.
    assert (Hsmall : Zpos m3 < 2 ^ (- e3)).
    { rewrite Hm3. apply Z.div_lt_upper_bound; [lia |].
      rewrite <- Z.pow_add_r by lia.
      replace (Z.max n2 0 + - e3) with (- e1) by lia. lia. }
    replace (e3 <=? 128 - 24) with true by (symmetry; apply Z.leb_le; lia).
    simpl. f_equal.
    rewrite Z.shiftl_div_pow2 by lia.
    apply Z.div_small; lia.
  - exfalso. assert (0 <= Zneg m3); [| lia].
    rewrite Hm3. apply Z.div_pos; lia.
Qed.

Lemma bounded_float_inv (m : positive) (e : Z) :
  bounded 24 128 m e = true ->
  Zpos (digits2_pos m) <= 24 /\ -149 <= e /\ Zpos m < 2 ^ 24.
Proof.
  unfold bounded, canonical_mantissa, fexp, emin; intros H.
  apply andb_prop in H; destruct H as [H _]; apply Z.eqb_eq in H.
  assert (Hd : Zpos (digits2_pos m) <= 24) by lia.
  repeat split; try lia.
  pose proof (digits2_pos_bounds m) as [_ Hm].
  pose proof (Z.pow_le_mono_r 2 (Zpos (digits2_pos m)) 24 ltac:(lia) Hd). lia.
Qed.

Lemma digits2_pos_le (p : positive) (k : Z) :
  0 <= k -> Zpos p < 2 ^ k -> Zpos (digits2_pos p) <= k.
Proof.
  intros Hk Hp. pose proof (digits2_pos_bounds p) as [Hlo _].
  assert (2 ^ (Zpos (digits2_pos p) - 1) < 2 ^ k) by lia.
  apply pow2_lt_inv in H; lia.
Qed.

Lemma iter_xO_digits (m k : positive) :
  digits2_pos (Pos.iter xO m k) = (digits2_pos m + k)%positive.
Proof.
  induction k as [| k IH] using Pos.peano_ind.
  - simpl. now rewrite Pos.add_1_r.
  - rewrite Pos.iter_succ; simpl. rewrite IH. now rewrite Pos.add_succ_r.
Qed.

Lemma double_of_float_positive (m : positive) (e : Z) :
  bounded 24 128 m e = true ->
  SFltb (S754_zero false) (double_of_float (S754_finite false m e)) = true.
Proof.
  intros Hb. destruct (bounded_float_inv m e Hb) as (Hd & He & _).
  unfold double_of_float, binary_normalize, cond_Zopp, binary_round, shl_align.
  set (e' := fexp 53 1024 (Zpos (digits2_pos m) + e)).
  assert (He' : e' < e) by (unfold e', fexp, emin; lia).
  destruct (e' - e) as [| k | k] eqn:Ek; try lia.
  unfold binary_round_aux, shr_fexp.
  change (Zdigits2 (Zpos (Pos.iter xO m k))) with (Zpos (digits2_pos (Pos.iter xO m k))).
  rewrite iter_xO_digits, Pos2Z.inj_add.
  replace (Zpos (digits2_pos m) + Zpos k + e') with (Zpos (digits2_pos m) + e) by lia.
  fold e'. rewrite Z.sub_diag. simpl shr. cbv beta iota.
  simpl round_nearest_even.
  change (Zdigits2 (Zpos (Pos.iter xO m k))) with (Zpos (digits2_pos (Pos.iter xO m k))).
  rewrite iter_xO_digits, Pos2Z.inj_add.
  replace (Zpos (digits2_pos m) + Zpos k + e') with (Zpos (digits2_pos m) + e) by lia.
  fold e'. rewrite Z.sub_diag. simpl.
  destruct (e' <=? 971); reflexivity.
Qed.

Lemma float_lt_inv (m : positive) (e : Z) (m0 : positive) (e0 : Z) :
  SFltb (S754_finite false m e) (S754_finite false m0 e0) = true ->
  e < e0 \/ (e = e0 /\ Zpos m < Zpos m0).
Proof.
  unfold SFltb, SFcompare.
  destruct (Z.compare_spec e e0) as [E | L | G]; intros H.
  - right; split; [exact E |].
    change (Pos.compare_cont Eq m m0) with (Pos.compare m m0) in H.
    destruct (Pos.compare_spec m m0) as [E' | L' | G']; try discriminate H.
    exact L'.
  - left; exact L.
  - discriminate H.
Qed.

Lemma hundred_times_below (m : positive) (e : Z) :
  bounded 24 128 m e = true ->
  SFltb (S754_finite false m e) (S754_finite false 10737418 (-30)) = true ->
  trunc (SFmul 24 128 (S754_finite false 13107200 (-17)) (S754_finite false m e)) = Some 0.
Proof.
  intros Hb Hlt.
  destruct (bounded_float_inv m e Hb) as (Hd & He & Hm).
  apply float_lt_inv in Hlt.
  unfold SFmul; change (xorb false false) with false.
  apply round_aux_below_one.
  rewrite Pos2Z.inj_mul.
  set (P := Zpos 13107200 * Zpos m).
  set (dP := Zpos (digits2_pos (13107200 * m))).
  assert (HdP : forall k, 0 <= k -> P < 2 ^ k -> dP <= k).
  { intros k Hk HP. apply digits2_pos_le; [exact Hk |]. rewrite Pos2Z.inj_mul. exact HP. }
  unfold fexp, emin.
  destruct Hlt as [Hlt | [He30 Hm30]].
  - assert (HP : P < 2 ^ 48 - 2 ^ 24) by (unfold P; change (2 ^ 48) with 281474976710656;
      change (2 ^ 24) with 16777216 in *; lia).
    assert (dP <= 48) by (apply HdP; [lia |]; change (2 ^ 24) with 16777216 in HP; lia).
    set (n := Z.max (Z.max (dP + (-17 + e) - 24) (3 - 128 - 24) - (-17 + e)) 0).
    assert (Hn : 0 <= n <= 24) by (unfold n; lia).
    assert (H1 : 2 ^ n <= 2 ^ 24) by (apply Z.pow_le_mono_r; lia).
    assert (H2 : 2 ^ 48 <= 2 ^ (- (-17 + e))) by (apply Z.pow_le_mono_r; lia).
    lia.
  - subst e.
    assert (HP : P < 2 ^ 47 - 2 ^ 23) by (unfold P; change (2 ^ 47) with 140737488355328;
      change (2 ^ 23) with 8388608; lia).
    assert (dP <= 47) by (apply HdP; [lia |]; change (2 ^ 23) with 8388608 in HP; lia).
    set (n := Z.max (Z.max (dP + (-17 + -30) - 24) (3 - 128 - 24) - (-17 + -30)) 0).
    assert (Hn : 0 <= n <= 23) by (unfold n; lia).
    assert (H1 : 2 ^ n <= 2 ^ 23) by (apply Z.pow_le_mono_r; lia).
    change (- (-17 + -30)) with 47.
    lia.
Qed.

Lemma f0_01_bits : f0_01 = S754_finite false 10737418 (-30).
Proof. vm_compute; reflexivity. Qed.

Lemma float_100_bits : float_of_Z 100 = S754_finite false 13107200 (-17).
Proof. vm_compute; reflexivity. Qed.

(** A [float] strictly between 0 and [0.01f] is a positive finite number. *)
Lemma between_zero_and_f0_01 (x : float) :
  valid_float x = true -> lt zero x = true -> lt x f0_01 = true ->
  exists m e, x = S754_finite false m e /\ bounded 24 128 m e = true.
Proof.
  rewrite f0_01_bits; unfold valid_float, lt, SFltb, zero.
  destruct x as [s | s | | s m e]; cbn [SFcompare valid_binary];
    intros Hv H0 H1; try discriminate H0.
  - destruct s; discriminate.
  - destruct s; [discriminate H0 |].
    exists m, e; split; [reflexivity | exact Hv].
Qed.

Section Kernel.
Context {cv : OpenCV}.

(** C10 (amended).  For every [float] value of [smoothContour] strictly
    between 0 and [0.01f] (the [float] nearest to 0.01, which is the
    largest [float] below it), the smoothing branch is taken and
    [(int)(100 * smoothContour)] is 0: the box filter is called with a
    0x0 kernel. *)
Theorem tiny_smoothContour_zero_kernel (tf : background_removal_filter) :
  valid_float (smoothContour tf) = true ->
  lt zero (smoothContour tf) = true ->
  lt (smoothContour tf) f0_01 = true ->
  smooth_enabled tf = true
  /\ k_size tf = Some 0
  /\ forall backgroundMask,
      smooth_mask tf backgroundMask
      = (blurred <- of_option CvException (boxFilter backgroundMask (mkSize 0 0)) ;;
         Returned (compare_gt_8U blurred 128)).
Proof.
  intros Hv H0 H1.
  destruct (between_zero_and_f0_01 _ Hv H0 H1) as (m & e & Hx & Hb).
  assert (Hen : smooth_enabled tf = true).
  { unfold smooth_enabled, gt; rewrite Hx.
    apply double_of_float_positive; exact Hb. }
  assert (Hk : k_size tf = Some 0).
  { unfold k_size, cast_int, cast_to, fmul.
    rewrite float_100_bits, Hx.
    rewrite Hx, f0_01_bits in H1.
    rewrite (hundred_times_below m e Hb H1); reflexivity. }
  repeat split; try assumption.
  intros backgroundMask; unfold smooth_mask; rewrite Hen, Hk; reflexivity.
Qed.
End Kernel.

(** ** The stand-ins honour the contracts *)


Lemma zrange_length (n : Z) : List.length (Ref.zrange n) = Z.to_nat n.
Proof. unfold Ref.zrange; now rewrite length_map, length_seq. Qed.

Lemma flat_map_length_const {A B : Type} (f : A -> list B) (k : nat) (l : list A) :
  (forall a, In a l -> List.length (f a) = k) ->
  List.length (flat_map f l) = (List.length l * k)%nat.
Proof.
  induction l as [| a l IH]; intros H; simpl; [reflexivity |].
  rewrite length_app, (H a (or_introl eq_refl)), IH; [reflexivity |].
  intros b Hb; apply H; right; exact Hb.
Qed.




(** * The statements on concrete frames and masks *)
Module Examples.
Import Ref.

(** C1, at a plugin directory without model files. *)
Lemma render_after_failed_load_witness :
  @obs_module_file obs_without_models (get_model_select (plain_settings MODEL_SINET)) = None
  /\ session (fst (@filter_create obs_without_models ort
                     (plain_settings MODEL_SINET) world0)) = None
  /\ @filter_render cv obs_without_models
       (fst (@filter_create obs_without_models ort (plain_settings MODEL_SINET) world0))
       frame_2x2 world0
     = Faulted OutOfRange.
Proof.
  split; [reflexivity |].
  apply (@render_after_failed_load_faults cv obs_without_models ort).
  left; reflexivity.
Defined.

(** C5, at a network whose input is 2 rows by 3 columns. *)
Lemma network_input_resize_witness :
  inputDims (with_inputDims bzalloc_filter [1; 3; 2; 3]) = [1; 3; 2; 3]
  /\ exists resized,
      resize_to_network_input (with_inputDims bzalloc_filter [1; 3; 2; 3])
        (mkMat 1 1 [(1, 2, 3)]) = Returned resized
      /\ rows resized = to_int 3 /\ cols resized = to_int 2.
Proof.
  split; [reflexivity |].
  apply (network_input_resize_swaps_dims
           (with_inputDims bzalloc_filter [1; 3; 2; 3]) (mkMat 1 1 [(1, 2, 3)])
           1 3 2 3 []).
  reflexivity.
Defined.

(** C5: the resized image is 3 rows by 2 columns, not 2 by 3. *)
Lemma network_input_resize_2x3 :
  resize_to_network_input (with_inputDims bzalloc_filter [1; 3; 2; 3])
    (mkMat 1 1 [(1, 2, 3)])
  = Returned (mkMat 3 2 (repeat (1, 2, 3) 6)).
Proof. vm_compute; reflexivity. Qed.

(** C3: an update that changes the threshold alone destroys both
    converters and replaces session 0 by the new session 3. *)
Lemma threshold_only_update_rebuilds :
  let tf1 := fst after_first_render in
  let tf2 := fst (filter_update tf1 other_threshold (snd after_first_render)) in
  (contourFilter tf2, smoothContour tf2, backgroundColor tf2, useGPU tf2, modelSelection tf2)
  = (contourFilter tf1, smoothContour tf1, backgroundColor tf1, useGPU tf1, modelSelection tf1)
  /\ threshold tf2 <> threshold tf1
  /\ option_map vs_handle (scalerToBGR tf1) = Some 1%nat
  /\ option_map vs_handle (scalerFromBGR tf1) = Some 2%nat
  /\ scalerToBGR tf2 = None
  /\ scalerFromBGR tf2 = None
  /\ option_map session_handle (session tf1) = Some 0%nat
  /\ option_map session_handle (session tf2) = Some 3%nat.
Proof. vm_compute; repeat split; discriminate. Qed.

Lemma filter_update_rebuilds_witness :
  handles_below (next_handle (snd after_first_render)) (fst after_first_render)
  /\ obs_module_file (get_model_select other_threshold) = Some "data/SINet_Softmax_simple.onnx"%string
  /\ Session_new "data/SINet_Softmax_simple.onnx" (get_useGPU other_threshold)
     = Some (zero_model [1; 3; 2; 2] [1; 1; 2; 2])
  /\ session (fst (filter_update (fst after_first_render) other_threshold
                     (snd after_first_render)))
     <> session (fst after_first_render).
Proof.
  assert (H : handles_below (next_handle (snd after_first_render)) (fst after_first_render)).
  { repeat split; intros s Hs; vm_compute in Hs; injection Hs as <-; vm_compute; lia. }
  split; [exact H |]; split; [reflexivity |]; split; [reflexivity |].
  exact (proj1 (proj2 (proj2 (proj2
           (filter_update_rebuilds_everything (fst after_first_render) other_threshold
              (snd after_first_render) "data/SINet_Softmax_simple.onnx"
              (zero_model [1; 3; 2; 2] [1; 1; 2; 2]) H eq_refl eq_refl))))).
Defined.

(** C4: the converter built for the 2x2 frame converts the 4x2 frame. *)
Lemma stale_converter_converts_other_geometry :
  match filter_render (fst after_first_render) frame_4x2 (snd after_first_render) with
  | Returned (_, tf2, w2) =>
      exists s,
        scalerToBGR tf2 = Some s
        /\ vs_src s = mkInfo VIDEO_FORMAT_BGR3 2 2
        /\ (frame_width frame_4x2, frame_height frame_4x2) = (4, 2)
        /\ In (Call_scaler_scale s 4 2 VIDEO_FORMAT_BGR3) (calls w2)
        /\ ~ In (Call_scaler_create (mkScaler 3 (mkInfo VIDEO_FORMAT_BGR3 4 2)
                                       (mkInfo VIDEO_FORMAT_BGR3 4 2))) (calls w2)
  | Faulted _ => False
  end.
Proof.
  vm_compute.
  eexists; split; [reflexivity |]; split; [reflexivity |]; split; [reflexivity |].
  split; [right; right; left; reflexivity |].
  intros H; repeat (destruct H as [H | H]; [discriminate H |]); exact H.
Qed.

Lemma converters_built_only_when_absent_witness :
  scalerToBGR (fst after_first_render)
  = Some (mkScaler 1 (mkInfo VIDEO_FORMAT_BGR3 2 2) (mkInfo VIDEO_FORMAT_BGR3 2 2))
  /\ convertFrameToBGR frame_4x2 (fst after_first_render) (snd after_first_render)
     = (mkMat 2 4
          (scale_to_BGR
             (mkScaler 1 (mkInfo VIDEO_FORMAT_BGR3 2 2) (mkInfo VIDEO_FORMAT_BGR3 2 2))
             (frame_data frame_4x2) (frame_linesize frame_4x2)),
        fst after_first_render,
        record_call
          (scale_call
             (mkScaler 1 (mkInfo VIDEO_FORMAT_BGR3 2 2) (mkInfo VIDEO_FORMAT_BGR3 2 2))
             frame_4x2)
          (snd after_first_render)).
Proof.
  split; [reflexivity |].
  exact (proj1 (converters_built_only_when_absent frame_4x2 (fst after_first_render)
                  (snd after_first_render))
           (mkScaler 1 (mkInfo VIDEO_FORMAT_BGR3 2 2) (mkInfo VIDEO_FORMAT_BGR3 2 2))
           eq_refl).
Defined.



(** C7, on the filter created with the refinements off. *)
Lemma refinements_off_witness :
  contourFilter (fst created) = S754_zero false
  /\ smoothContour (fst created) = S754_zero false
  /\ postprocess (fst created) zeros_2x2 (mkSize 4 2)
     = Returned (cv_resize_8UC1 (threshold_mask (fst created) zeros_2x2) (mkSize 4 2)).
Proof.
  split; [reflexivity |]; split; [reflexivity |].
  exact (proj2 (proj2 (refinements_off_give_raw_mask (fst created) zeros_2x2 (mkSize 4 2)
                         false false eq_refl eq_refl))).
Defined.

(** C8, with [smoothContour = 0.01f], a 1x1 kernel, on a mask holding
    grey values as a resize leaves them: 128 goes to 0, 129 to 255. *)
Lemma smoothing_rebinarizes_witness :
  gt (double_of_float (smoothContour (with_smoothContour bzalloc_filter f0_01))) d0_0 = true
  /\ cast_int (fmul (float_of_Z 100) (smoothContour (with_smoothContour bzalloc_filter f0_01)))
     = Some 1
  /\ boxFilter grey_mask (mkSize 1 1) = Some grey_mask
  /\ smooth_mask (with_smoothContour bzalloc_filter f0_01) grey_mask
     = Returned (mkMat 2 2 [0; 0; 255; 255])
  /\ exists smoothed,
      smooth_mask (with_smoothContour bzalloc_filter f0_01) grey_mask = Returned smoothed
      /\ rows smoothed = rows grey_mask
      /\ cols smoothed = cols grey_mask
      /\ List.length (elems smoothed) = List.length (elems grey_mask)
      /\ (forall i v, nth_error (elems grey_mask) i = Some v ->
            (128 < v -> nth_error (elems smoothed) i = Some 255)
            /\ (v <= 128 -> nth_error (elems smoothed) i = Some 0))
      /\ binary_mask smoothed.
Proof.
  split; [reflexivity |]; split; [reflexivity |]; split; [reflexivity |].
  split; [vm_compute; reflexivity |].
  exact (proj1 (smoothing_rebinarizes (with_smoothContour bzalloc_filter f0_01)
                  grey_mask 1 eq_refl eq_refl)
           grey_mask eq_refl).
Defined.

(** C6, with the default [contourFilter = 0.05] on the 10x10 mask holding
    a 4x4 block: the threshold is 5 and the block, of area 9, is kept. *)
Lemma contour_filter_witness :
  contour_enabled (with_contourFilter bzalloc_filter (float_of_double d0_05)) = true
  /\ cast_int64 (fmul (float_of_Z (total (block_mask 4)))
                   (contourFilter (with_contourFilter bzalloc_filter (float_of_double d0_05))))
     = Some 5
  /\ exists kept,
      contour_processing (with_contourFilter bzalloc_filter (float_of_double d0_05))
        (block_mask 4)
      = Returned (drawContours (setTo_zero (block_mask 4)) kept)
      /\ (forall c, In c kept <->
                    In c (findContours (block_mask 4))
                    /\ gt (contourArea c) (double_of_Z 5) = true).
Proof.
  split; [reflexivity |]; split; [reflexivity |].
  exact (contour_filter_keeps_above_truncated_threshold
           (with_contourFilter bzalloc_filter (float_of_double d0_05)) (block_mask 4) 5
           eq_refl eq_refl).
Defined.

(** C6: two regions on which the rule "discard when the area is at or
    below [total * contourFilter]" and the code part.  With
    [contourFilter = 0.01f] the 2x2 block, of 4 pixels and of contour
    area 1, lies above the product 0.99999998 and is discarded, the
    [float] product being rounded to 1; with [contourFilter = 0.0075f] the
    three-pixel corner, of contour area 1/2, lies below the product 0.75
    and is kept, the product being truncated to 0. *)
Lemma contour_filter_departs_from_exact_product :
  (contour_enabled (with_contourFilter bzalloc_filter f0_01) = true
   /\ findContours (block_mask 2) = [[(3, 3); (3, 4); (4, 4); (4, 3)]]
   /\ Qlt (Qmult (inject_Z (total (block_mask 2))) (exact_value f0_01))
          (exact_value (contourArea [(3, 3); (3, 4); (4, 4); (4, 3)]))
   /\ contour_processing (with_contourFilter bzalloc_filter f0_01) (block_mask 2)
      = Returned (setTo_zero (block_mask 2))
   /\ setTo_zero (block_mask 2) <> block_mask 2)
  /\ (contour_enabled (with_contourFilter bzalloc_filter f0_0075) = true
      /\ findContours corner_mask = [[(3, 3); (3, 4); (4, 3)]]
      /\ Qle (exact_value (contourArea [(3, 3); (3, 4); (4, 3)]))
             (exact_value (fmul (float_of_Z (total corner_mask)) f0_0075))
      /\ Qle (exact_value (contourArea [(3, 3); (3, 4); (4, 3)]))
             (Qmult (inject_Z (total corner_mask)) (exact_value f0_0075))
      /\ contour_processing (with_contourFilter bzalloc_filter f0_0075) corner_mask
         = Returned corner_mask
      /\ corner_mask <> setTo_zero corner_mask).
Proof.
  repeat split; try (vm_compute; reflexivity); try (vm_compute; discriminate).
Qed.

(** C10: [smoothContour = 0.01f] lies strictly between 0 and 0.01, both as
    the C++ comparison with the literal [0.01] evaluates it and as an
    exact number, yet the kernel size is 1. *)
Lemma f0_01_gives_kernel_one :
  valid_float f0_01 = true
  /\ lt zero f0_01 = true
  /\ lt (double_of_float f0_01) d0_01 = true
  /\ (0 < exact_value f0_01 /\ exact_value f0_01 < 1 # 100)%Q
  /\ smooth_enabled (with_smoothContour bzalloc_filter f0_01) = true
  /\ k_size (with_smoothContour bzalloc_filter f0_01) = Some 1
  /\ smooth_mask (with_smoothContour bzalloc_filter f0_01) (block_mask 4)
     = (blurred <- of_option CvException (boxFilter (block_mask 4) (mkSize 1 1)) ;;
        Returned (compare_gt_8U blurred 128)).
Proof.
  repeat split; vm_compute; reflexivity.
Qed.

(** C10, at the [float] just below [0.01f]. *)
Lemma tiny_smoothContour_witness :
  valid_float (smoothContour (with_smoothContour bzalloc_filter f0_01_pred)) = true
  /\ lt zero (smoothContour (with_smoothContour bzalloc_filter f0_01_pred)) = true
  /\ lt (smoothContour (with_smoothContour bzalloc_filter f0_01_pred)) f0_01 = true
  /\ k_size (with_smoothContour bzalloc_filter f0_01_pred) = Some 0.
Proof.
  split; [reflexivity |]; split; [reflexivity |]; split; [reflexivity |].
  exact (proj1 (proj2 (tiny_smoothContour_zero_kernel
                         (with_smoothContour bzalloc_filter f0_01_pred)
                         eq_refl eq_refl eq_refl))).
Defined.
End Examples.

(** * Further properties of the source file *)

(** ** Tensor shapes and buffers *)

Lemma to_int64_mul_l (a d : Z) : to_int64 (to_int64 a * d) = to_int64 (a * d).
Proof.
  unfold to_int64; f_equal.
  pose proof (Z.div_mod (a + 2 ^ 63) (2 ^ 64) ltac:(discriminate)) as E.
  replace ((a + 2 ^ 63) mod 2 ^ 64 - 2 ^ 63)
    with (a + (- ((a + 2 ^ 63) / 2 ^ 64)) * 2 ^ 64) by lia.
  replace ((a + - ((a + 2 ^ 63) / 2 ^ 64) * 2 ^ 64) * d + 2 ^ 63)
    with (a * d + 2 ^ 63 + (- ((a + 2 ^ 63) / 2 ^ 64) * d) * 2 ^ 64) by ring.
  apply Z_mod_plus_full.
Qed.

Lemma to_int64_small (z : Z) : - 2 ^ 63 <= z < 2 ^ 63 -> to_int64 z = z.
Proof.
  intros H; unfold to_int64.
  rewrite Z.mod_small; lia.
Qed.

Lemma vectorProduct_from (v : list Z) : forall a : Z,
  fold_left (fun acc d => to_int64 (acc * d)) v (to_int64 a)
  = to_int64 (fold_left Z.mul v a).
Proof.
  induction v as [| d v IH]; intros a; simpl; [reflexivity |].
  rewrite to_int64_mul_l; apply IH.
Qed.

(** [vectorProduct] is the product of the shape reduced to [int64_t]: the
    intermediate wrap-arounds do not show in the result, and a shape whose
    product fits 64 bits gives that product. *)
Theorem vectorProduct_wraps_product (v : list Z) :
  vectorProduct v = to_int64 (shape_product v)
  /\ (- 2 ^ 63 <= shape_product v < 2 ^ 63 -> vectorProduct v = shape_product v).
Proof.
  assert (H : vectorProduct v = to_int64 (shape_product v)).
  { unfold vectorProduct, shape_product.
    change 1 with (to_int64 1) at 1; apply vectorProduct_from. }
  split; [exact H |].
  intros Hr; rewrite H; apply to_int64_small; exact Hr.
Qed.

Lemma channel_maps (src : list pixelf) :
  map (fun '(a, _, _) => a) src = map (channel 0) src
  /\ map (fun '(_, b, _) => b) src = map (channel 1) src
  /\ map (fun '(_, _, c) => c) src = map (channel 2) src.
Proof.
  repeat split; apply map_ext; intros [[a b] c]; reflexivity.
Qed.

(** [hwc_to_chw] lays the image out in three planes: the result is one row
    of three times as many elements, and element [i] of plane [k] is
    channel [k] of pixel [i], in the order of the pixels. *)
Theorem hwc_to_chw_planar (src : Mat pixelf) (k i : nat) :
  (k < 3)%nat ->
  (i < List.length (elems src))%nat ->
  rows (hwc_to_chw src) = 1
  /\ cols (hwc_to_chw src) = 3 * total src
  /\ List.length (elems (hwc_to_chw src)) = (3 * List.length (elems src))%nat
  /\ nth_error (elems (hwc_to_chw src)) (k * List.length (elems src) + i)
     = option_map (channel k) (nth_error (elems src) i).
Proof.
  intros Hk Hi; unfold hwc_to_chw; cbn [rows cols elems].
  destruct (channel_maps (elems src)) as (E0 & E1 & E2); rewrite E0, E1, E2.
  split; [reflexivity |]; split; [reflexivity |]; split.
  - rewrite !length_app, !length_map; lia.
  - destruct k as [| [| [| k]]]; [| | | lia].
    + rewrite nth_error_app1 by (rewrite length_map; lia).
      apply nth_error_map.
    + rewrite nth_error_app2 by (rewrite length_map; lia).
      rewrite length_map.
      replace (1 * List.length (elems src) + i - List.length (elems src))%nat with i by lia.
      rewrite nth_error_app1 by (rewrite length_map; lia).
      apply nth_error_map.
    + rewrite nth_error_app2 by (rewrite length_map; lia).
      rewrite length_map.
      rewrite nth_error_app2 by (rewrite length_map; lia).
      rewrite length_map.
      replace (2 * List.length (elems src) + i - List.length (elems src)
               - List.length (elems src))%nat with i by lia.
      apply nth_error_map.
Qed.

(** ** Compositing *)

Lemma setTo_elems_length (color : pixel) (img : list pixel) : forall mask : list uchar,
  List.length (setTo_elems color img mask) = List.length img.
Proof.
  induction img as [| p img IH]; intros [| v mask]; simpl; try reflexivity.
  now rewrite IH.
Qed.

Lemma setTo_elems_nth (color : pixel) (img : list pixel) :
  forall (mask : list uchar) (i : nat) (p : pixel) (v : uchar),
    nth_error img i = Some p -> nth_error mask i = Some v ->
    nth_error (setTo_elems color img mask) i = Some (if v =? 0 then p else color).
Proof.
  induction img as [| q img IH]; intros [| u mask] [| i] p v Hp Hv; simpl in *;
    try discriminate.
  - injection Hp as <-; injection Hv as <-; reflexivity.
  - apply IH; assumption.
Qed.

(** [img.setTo(color, mask)] keeps the geometry of the image, leaves a
    pixel whose mask element is 0 as it is and gives every other pixel the
    colour; nothing is blended. *)
Theorem setTo_masked_selects (img : Mat pixel) (color : pixel) (mask : Mat uchar)
    (i : nat) (p : pixel) (v : uchar) :
  nth_error (elems img) i = Some p ->
  nth_error (elems mask) i = Some v ->
  rows (setTo_masked img color mask) = rows img
  /\ cols (setTo_masked img color mask) = cols img
  /\ List.length (elems (setTo_masked img color mask)) = List.length (elems img)
  /\ nth_error (elems (setTo_masked img color mask)) i
     = Some (if v =? 0 then p else color).
Proof.
  intros Hp Hv; unfold setTo_masked; cbn [rows cols elems].
  split; [reflexivity |]; split; [reflexivity |]; split.
  - apply setTo_elems_length.
  - apply setTo_elems_nth; assumption.
Qed.

(** ** Loading the model *)


Section Loading.
Context {cv : OpenCV} {obs : LibObs} {ort : OnnxRuntime}.

Lemma createOrtSession_configuration (tf : background_removal_filter) (w : World) :
  configuration (fst (createOrtSession tf w)) = configuration tf.
Proof.
  unfold createOrtSession.
  destruct (obs_module_file (modelSelection tf)) as [p |]; [| reflexivity].
  cbn [set_modelFilepath useGPU].
  destruct (Session_new p (useGPU tf)) as [model |]; reflexivity.
Qed.

Lemma destroyScalers_keeps (tf : background_removal_filter) (w : World) :
  configuration (fst (destroyScalers tf w)) = configuration tf
  /\ loaded_model (fst (destroyScalers tf w)) = loaded_model tf
  /\ inputTensorValues (fst (destroyScalers tf w)) = inputTensorValues tf
  /\ outputTensorValues (fst (destroyScalers tf w)) = outputTensorValues tf.
Proof. repeat split. Qed.

(** The configuration after [filter_update], field by field. *)
Lemma filter_update_configuration (tf : background_removal_filter)
    (settings : obs_data) (w : World) :
  configuration (fst (filter_update tf settings w))
  = (float_of_double (get_threshold settings),
     (Z.land (get_replaceColor settings) 255,
      Z.land (Z.shiftr (get_replaceColor settings) 8) 255,
      Z.land (Z.shiftr (get_replaceColor settings) 16) 255),
     float_of_double (get_contour_filter settings),
     float_of_double (get_smooth_contour settings),
     get_useGPU settings, get_model_select settings).
Proof.
  unfold filter_update.
  match goal with
  | |- context [destroyScalers ?t w] =>
      pose proof (destroyScalers_keeps t w) as (D & _);
      destruct (destroyScalers t w) as [tf0 w0]
  end.
  rewrite createOrtSession_configuration; exact D.
Qed.


(** A settings update whose load fails adopts the new configuration, the
    selected model included, but keeps the session, names, shapes and
    buffers of the model loaded before, and destroys the converters. *)
Theorem failed_reload_keeps_previous_model (tf : background_removal_filter)
    (settings : obs_data) (w : World) :
  (obs_module_file (get_model_select settings) = None
   \/ exists p, obs_module_file (get_model_select settings) = Some p
                /\ Session_new p (get_useGPU settings) = None) ->
  let tf' := fst (filter_update tf settings w) in
  loaded_model tf' = loaded_model tf
  /\ inputTensorValues tf' = inputTensorValues tf
  /\ outputTensorValues tf' = outputTensorValues tf
  /\ modelSelection tf' = get_model_select settings
  /\ scalerToBGR tf' = None /\ scalerFromBGR tf' = None.
Proof.
  intros Hfail tf'; subst tf'.
  pose proof (filter_update_configuration tf settings w) as Hcfg.
  unfold filter_update in *.
  match goal with
  | |- context [destroyScalers ?t w] =>
      pose proof (destroyScalers_keeps t w) as (Dc & Dm & Di & Do);
      pose proof (destroyScalers_spec t w) as (S1 & S2 & _);
      destruct (destroyScalers t w) as [tf0 w0]
  end.
  cbn [fst] in *.
  assert (Hsel : modelSelection tf0 = get_model_select settings)
    by (unfold configuration in Dc; cbn in Dc; congruence).
  assert (Hgpu : useGPU tf0 = get_useGPU settings)
    by (unfold configuration in Dc; cbn in Dc; congruence).
  unfold loaded_model in *; cbn in Dm, Di, Do.
  unfold createOrtSession; rewrite Hsel.
  destruct Hfail as [Hf | (p & Hf & Hn)]; rewrite Hf.
  - cbn [fst]; rewrite Dm, Di, Do, Hsel, S1, S2; repeat split.
  - cbn [set_modelFilepath useGPU]; rewrite Hgpu, Hn; cbn.
    rewrite Di, Do, Hsel, S1, S2.
    injection Dm as -> -> -> -> ->; repeat split.
Qed.

(** [filter_update] takes the three low bytes of [replaceColor] as the
    three channels of the background colour, lowest byte first, and
    ignores every higher bit. *)
Theorem replaceColor_bytes (tf : background_removal_filter) (settings : obs_data)
    (w : World) (c0 c1 c2 hi : Z) :
  0 <= c0 < 256 -> 0 <= c1 < 256 -> 0 <= c2 < 256 -> 0 <= hi ->
  get_replaceColor settings = c0 + 256 * c1 + 65536 * c2 + 16777216 * hi ->
  backgroundColor (fst (filter_update tf settings w)) = (c0, c1, c2).
Proof.
  intros H0 H1 H2 H3 Hc.
  pose proof (filter_update_configuration tf settings w) as Hcfg.
  unfold configuration in Hcfg.
  injection Hcfg as _ Hb _ _ _ _; rewrite Hb, Hc.
  change 255 with (Z.ones 8).
  rewrite !Z.land_ones, !Z.shiftr_div_pow2 by lia.
  change (2 ^ 8) with 256; change (2 ^ 16) with 65536.
  f_equal; [f_equal |].
  - symmetry; apply (Z.mod_unique _ _ (c1 + 256 * c2 + 65536 * hi)); lia.
  - replace ((c0 + 256 * c1 + 65536 * c2 + 16777216 * hi) / 256)
      with (c1 + 256 * c2 + 65536 * hi)
      by (apply (Z.div_unique _ _ _ c0); lia).
    symmetry; apply (Z.mod_unique _ _ (c2 + 256 * hi)); lia.
  - replace ((c0 + 256 * c1 + 65536 * c2 + 16777216 * hi) / 65536)
      with (c2 + 256 * hi)
      by (apply (Z.div_unique _ _ _ (c0 + 256 * c1)); lia).
    symmetry; apply (Z.mod_unique _ _ hi); lia.
Qed.
End Loading.

(** ** The structure of a render call *)

Lemma nth_error_3_2 {A : Type} (l : list A) (d : A) :
  nth_error l 3 = Some d -> exists c, nth_error l 2 = Some c.
Proof.
  destruct l as [| a [| b [| c l]]]; simpl; try discriminate.
  intros _; exists c; reflexivity.
Qed.

Section RenderStructure.
Context {cv : OpenCV} {obs : LibObs} {ort : OnnxRuntime}.

Lemma destroyScalers_payload (tf : background_removal_filter) (w : World) :
  payload (fst (destroyScalers tf w)) = payload tf.
Proof. reflexivity. Qed.

Lemma initializeScalers_payload (sz : Size) (fmt : video_format)
    (tf : background_removal_filter) (w : World) :
  payload (fst (initializeScalers sz fmt tf w)) = payload tf.
Proof.
  unfold initializeScalers.
  pose proof (destroyScalers_payload tf w) as D.
  destruct (destroyScalers tf w) as [tf0 w0]; exact D.
Qed.

Lemma convertFrameToBGR_payload (frame : obs_source_frame)
    (tf : background_removal_filter) (w : World) :
  payload (snd (fst (convertFrameToBGR frame tf w))) = payload tf.
Proof.
  unfold convertFrameToBGR.
  destruct (scalerToBGR tf) as [s |] eqn:E.
  - rewrite E; reflexivity.
  - pose proof (initializeScalers_payload (frame_size frame) (frame_format frame) tf w) as I.
    destruct (initializeScalers (frame_size frame) (frame_format frame) tf w) as [tf1 w1].
    destruct (scalerToBGR tf1); exact I.
Qed.

Lemma convertBGRToFrame_payload (img : Mat pixel) (frame : obs_source_frame)
    (tf : background_removal_filter) (w : World) :
  payload (snd (fst (convertBGRToFrame img frame tf w))) = payload tf.
Proof.
  unfold convertBGRToFrame.
  destruct (scalerFromBGR tf) as [s |] eqn:E.
  - rewrite E; reflexivity.
  - pose proof (initializeScalers_payload (frame_size frame) (frame_format frame) tf w) as I.
    destruct (initializeScalers (frame_size frame) (frame_format frame) tf w) as [tf1 w1].
    destruct (scalerFromBGR tf1); exact I.
Qed.

(** The tensors written by one render call. *)
Lemma filter_render_returned (tf : background_removal_filter) (frame : obs_source_frame)
    (w : World) (f' : obs_source_frame) (tf' : background_removal_filter) (w' : World) :
  filter_render tf frame w = Returned (f', tf', w') ->
  exists img tf1 w1 resized s output outImg masked,
    convertFrameToBGR frame tf w = (img, tf1, w1)
    /\ resize_to_network_input tf1 (cvtColor_BGR2RGB img) = Returned resized
    /\ session tf1 = Some s
    /\ Run (session_model s) (elems (normalize_and_pack tf1 resized)) = Some output
    /\ output_image
         (set_outputTensorValues
            (set_inputTensorValues tf1 (elems (normalize_and_pack tf1 resized))) output)
       = Returned outImg
    /\ mask_the_input
         (set_outputTensorValues
            (set_inputTensorValues tf1 (elems (normalize_and_pack tf1 resized))) output)
         outImg img
       = Returned masked
    /\ convertBGRToFrame masked frame
         (set_outputTensorValues
            (set_inputTensorValues tf1 (elems (normalize_and_pack tf1 resized))) output)
         (record_call (Call_session_run (session_handle s)) w1)
       = (f', tf', w').
Proof.
  unfold filter_render.
  destruct (convertFrameToBGR frame tf w) as [[img tf1] w1].
  intros H.
  apply bind_returned in H; destruct H as (resized & Hres & H).
  apply bind_returned in H; destruct H as (x & Hrun & H).
  unfold run_inference in Hrun.
  apply bind_returned in Hrun; destruct Hrun as (s & Hs & Hrun).
  change (session (set_inputTensorValues tf1 (elems (normalize_and_pack tf1 resized))))
    with (session tf1) in Hs.
  destruct (session tf1) as [s0 |] eqn:Es; [| discriminate Hs].
  assert (s0 = s) by (unfold of_option in Hs; congruence); subst s0.
  change (inputTensorValues
            (set_inputTensorValues tf1 (elems (normalize_and_pack tf1 resized))))
    with (elems (normalize_and_pack tf1 resized)) in Hrun.
  apply bind_returned in Hrun; destruct Hrun as (output & Ho & Hrun).
  destruct (Run (session_model s) (elems (normalize_and_pack tf1 resized)))
    as [o |] eqn:Er; [| discriminate Ho].
  assert (o = output) by (unfold of_option in Ho; congruence); subst o.
  assert (Hx : x = (set_outputTensorValues
                      (set_inputTensorValues tf1 (elems (normalize_and_pack tf1 resized)))
                      output,
                    record_call (Call_session_run (session_handle s)) w1))
    by congruence.
  subst x; cbv beta iota in H.
  apply bind_returned in H; destruct H as (outImg & Hout & H).
  apply bind_returned in H; destruct H as (masked & Hmask & H).
  assert (Hfin : convertBGRToFrame masked frame
                   (set_outputTensorValues
                      (set_inputTensorValues tf1 (elems (normalize_and_pack tf1 resized)))
                      output)
                   (record_call (Call_session_run (session_handle s)) w1)
                 = (f', tf', w')) by congruence.
  exists img, tf1, w1, resized, s, output, outImg, masked.
  repeat split; assumption.
Qed.

Lemma converters_present_are_used (frame : obs_source_frame)
    (tf : background_removal_filter) (w : World) (a : video_scaler) :
  scalerToBGR tf = Some a ->
  convertFrameToBGR frame tf w
  = (mkMat (frame_height frame) (frame_width frame)
       (scale_to_BGR a (frame_data frame) (frame_linesize frame)),
     tf, record_call (scale_call a frame) w).
Proof.
  intros Ha; unfold convertFrameToBGR; rewrite Ha; cbn [fst snd]; rewrite Ha; reflexivity.
Qed.

Lemma payload_parts (a b : background_removal_filter) :
  payload a = payload b ->
  configuration a = configuration b /\ loaded_model a = loaded_model b.
Proof. unfold payload; intros H; split; congruence. Qed.

Lemma convertBGRToFrame_result (img : Mat pixel) (frame : obs_source_frame)
    (tf : background_removal_filter) (w : World) :
  let r := convertBGRToFrame img frame tf w in
  (frame_width (fst (fst r)), frame_height (fst (fst r)), frame_format (fst (fst r)),
   frame_linesize (fst (fst r)))
  = (frame_width frame, frame_height frame, frame_format frame, frame_linesize frame)
  /\ (forall b, scalerFromBGR tf = Some b ->
        snd (fst r) = tf
        /\ snd r = record_call (scale_call b frame) w
        /\ frame_data (fst (fst r)) = scale_from_BGR b img)
  /\ (scalerFromBGR tf = None ->
        exists a b, scalerToBGR (snd (fst r)) = Some a
                    /\ scalerFromBGR (snd (fst r)) = Some b).
Proof.
  unfold convertBGRToFrame.
  destruct (scalerFromBGR tf) as [s |] eqn:E.
  - rewrite E; cbn [fst snd frame_width frame_height frame_format frame_linesize frame_data].
    split; [reflexivity |]; split; [| discriminate].
    intros b Hb; injection Hb as <-; repeat split.
  - pose proof (initializeScalers_spec (frame_size frame) (frame_format frame) tf w) as I.
    destruct (initializeScalers (frame_size frame) (frame_format frame) tf w) as [tf1 w1].
    cbn [fst snd] in I; destruct I as (I1 & I2 & _).
    rewrite I2; cbn [fst snd frame_width frame_height frame_format frame_linesize].
    split; [reflexivity |]; split; [discriminate |].
    intros _; eexists; eexists; split; [exact I1 | exact I2].
Qed.

(** A render call that returns leaves the configuration and the cached
    model (session, names, shapes) as they were: it writes the two tensor
    buffers and, at most, builds the converters. *)
Theorem filter_render_keeps_configuration (tf : background_removal_filter)
    (frame : obs_source_frame) (w : World) (f' : obs_source_frame)
    (tf' : background_removal_filter) (w' : World) :
  filter_render tf frame w = Returned (f', tf', w') ->
  configuration tf' = configuration tf /\ loaded_model tf' = loaded_model tf.
Proof.
  intros H.
  destruct (filter_render_returned _ _ _ _ _ _ H)
    as (img & tf1 & w1 & resized & s & output & outImg & masked & Hc & _ & _ & _ & _ & _ & Hfin).
  pose proof (convertFrameToBGR_payload frame tf w) as P1; rewrite Hc in P1.
  match type of Hfin with
  | convertBGRToFrame ?m ?f ?t ?x = _ =>
      pose proof (convertBGRToFrame_payload m f t x) as P2; rewrite Hfin in P2
  end.
  cbn [fst snd] in P1, P2.
  apply payload_parts in P1; apply payload_parts in P2.
  destruct P1 as [C1 M1], P2 as [C2 M2].
  split; [rewrite C2 | rewrite M2]; assumption.
Qed.

(** The frame a render call returns has the width, height, format and
    line sizes of the frame it was given: the call rewrites the planes
    only. *)
Theorem filter_render_keeps_frame_geometry (tf : background_removal_filter)
    (frame : obs_source_frame) (w : World) (f' : obs_source_frame)
    (tf' : background_removal_filter) (w' : World) :
  filter_render tf frame w = Returned (f', tf', w') ->
  (frame_width f', frame_height f', frame_format f', frame_linesize f')
  = (frame_width frame, frame_height frame, frame_format frame, frame_linesize frame).
Proof.
  intros H.
  destruct (filter_render_returned _ _ _ _ _ _ H)
    as (img & tf1 & w1 & resized & s & output & outImg & masked & _ & _ & _ & _ & _ & _ & Hfin).
  match type of Hfin with
  | convertBGRToFrame ?m ?f ?t ?x = _ =>
      pose proof (convertBGRToFrame_result m f t x) as R; rewrite Hfin in R;
      cbn [fst snd] in R; destruct R as (G & _ & _)
  end.
  exact G.
Qed.

Lemma filter_render_reuses_aux (tf : background_removal_filter)
    (frame : obs_source_frame) (w : World) (f' : obs_source_frame)
    (tf' : background_removal_filter) (w' : World) (a b : video_scaler) :
  scalerToBGR tf = Some a ->
  scalerFromBGR tf = Some b ->
  filter_render tf frame w = Returned (f', tf', w') ->
  exists s,
    session tf = Some s
    /\ calls w' = scale_call b frame :: Call_session_run (session_handle s)
                  :: scale_call a frame :: calls w
    /\ next_handle w' = next_handle w
    /\ scalerToBGR tf' = Some a /\ scalerFromBGR tf' = Some b.
Proof.
  intros Ha Hb H.
  destruct (filter_render_returned _ _ _ _ _ _ H)
    as (img & tf1 & w1 & resized & s & output & outImg & masked & Hc & _ & Hs & _ & _ & _ & Hfin).
  pose proof (converters_present_are_used frame tf w a Ha) as Hconv.
  rewrite Hconv in Hc.
  assert (tf1 = tf) by congruence; assert (w1 = record_call (scale_call a frame) w) by congruence.
  subst tf1 w1.
  match type of Hfin with
  | convertBGRToFrame ?m ?f ?t ?x = _ =>
      pose proof (convertBGRToFrame_result m f t x) as R; rewrite Hfin in R;
      cbn [fst snd] in R; destruct R as (_ & Rsome & _);
      destruct (Rsome b Hb) as (Et & Ew & _)
  end.
  exists s; subst tf' w'; repeat split; assumption.
Qed.

(** With both converters in place a render call that returns creates and
    destroys nothing: it converts with the converter it holds, runs the
    session once and converts back, and the converters it holds
    afterwards are the same objects. *)
Theorem filter_render_reuses_converters (tf : background_removal_filter)
    (frame : obs_source_frame) (w : World) (f' : obs_source_frame)
    (tf' : background_removal_filter) (w' : World) (a b : video_scaler) :
  scalerToBGR tf = Some a ->
  scalerFromBGR tf = Some b ->
  filter_render tf frame w = Returned (f', tf', w') ->
  exists s,
    session tf = Some s
    /\ calls w' = scale_call b frame :: Call_session_run (session_handle s)
                  :: scale_call a frame :: calls w
    /\ next_handle w' = next_handle w
    /\ scalerToBGR tf' = Some a /\ scalerFromBGR tf' = Some b.
Proof. exact (filter_render_reuses_aux tf frame w f' tf' w' a b). Qed.

Lemma of_option_returned {A : Type} (f : fault) (o : option A) (a : A) :
  of_option f o = Returned a <-> o = Some a.
Proof.
  destruct o as [x |]; simpl; split; intros H; try discriminate; congruence.
Qed.

Lemma total_threshold_mask (tf : background_removal_filter) (o : Mat float) :
  total (threshold_mask tf o) = total o.
Proof. unfold threshold_mask; destruct (is_SINet tf); reflexivity. Qed.

Lemma contour_processing_returns (tf : background_removal_filter) (m : Mat uchar) :
  (exists m', contour_processing tf m = Returned m')
  <-> negb (contour_enabled tf) || is_some (contourSizeThreshold tf m) = true.
Proof.
  unfold contour_processing.
  destruct (contour_enabled tf); cbn [negb orb].
  - destruct (contourSizeThreshold tf m) as [thr |]; cbn [of_option bind is_some].
    + split; [reflexivity | intros _; eexists; reflexivity].
    + split; [intros [m' H]; discriminate H | discriminate].
  - split; [reflexivity | intros _; eexists; reflexivity].
Qed.

Lemma smooth_mask_returned (tf : background_removal_filter) (m m' : Mat uchar) :
  smooth_mask tf m = Returned m' ->
  negb (smooth_enabled tf) || is_some (k_size tf) = true.
Proof.
  unfold smooth_mask.
  destruct (smooth_enabled tf); cbn [negb orb]; [| reflexivity].
  destruct (k_size tf) as [k |]; cbn [of_option bind is_some];
    [reflexivity | discriminate].
Qed.


Lemma mask_the_input_returned (tf : background_removal_filter) (o : Mat float)
    (img r : Mat pixel) :
  mask_the_input tf o img = Returned r ->
  (negb (contour_enabled tf)
   || is_some (cast_int64 (fmul (float_of_Z (total o)) (contourFilter tf))))
  && (negb (smooth_enabled tf) || is_some (k_size tf)) = true.
Proof.
  unfold mask_the_input, postprocess; intros H.
  apply bind_returned in H; destruct H as (mask & Hp & _).
  apply bind_returned in Hp; destruct Hp as (m1 & Hc & Hs).
  apply andb_true_iff; split.
  - rewrite <- (total_threshold_mask tf o).
    apply (contour_processing_returns tf (threshold_mask tf o)).
    exists m1; exact Hc.
  - exact (smooth_mask_returned tf _ _ Hs).
Qed.


Lemma resize_to_network_input_returns (tf : background_removal_filter)
    (img : Mat pixel) :
  (exists r, resize_to_network_input tf img = Returned r)
  <-> is_some (nth_error (inputDims tf) 3) = true.
Proof.
  unfold resize_to_network_input, vector_at.
  destruct (nth_error (inputDims tf) 3) as [d3 |] eqn:E3; cbn [is_some].
  - destruct (nth_error_3_2 _ _ E3) as [d2 E2]; rewrite E2.
    split; [reflexivity | intros _; eexists; reflexivity].
  - split; [| discriminate].
    intros [r H]; destruct (nth_error (inputDims tf) 2); discriminate H.
Qed.

Lemma output_image_returns (tf : background_removal_filter) (o : Mat float) :
  output_image tf = Returned o
  <-> exists r c,
      nth_error (outputDims tf) 2 = Some r /\ nth_error (outputDims tf) 3 = Some c
      /\ o = mkMat (to_int r) (to_int c)
               (firstn (Z.to_nat (to_int r * to_int c)) (outputTensorValues tf)).
Proof.
  unfold output_image, vector_at.
  destruct (nth_error (outputDims tf) 2) as [r |]; cbn [of_option bind].
  - destruct (nth_error (outputDims tf) 3) as [c |]; cbn [of_option bind].
    + split.
      * intros H; exists r, c; repeat split; congruence.
      * intros (r' & c' & Hr & Hc & ->); congruence.
    + split; [discriminate | intros (r' & c' & _ & Hc & _); discriminate Hc].
  - split; [discriminate | intros (r' & c' & Hr & _); discriminate Hr].
Qed.

Lemma render_ready_ext (a b : background_removal_filter) :
  configuration a = configuration b -> loaded_model a = loaded_model b ->
  render_ready a = render_ready b.
Proof.
  unfold configuration, loaded_model; intros Hc Hm.
  assert (E1 : contourFilter a = contourFilter b) by congruence.
  assert (E2 : smoothContour a = smoothContour b) by congruence.
  assert (E3 : inputDims a = inputDims b) by congruence.
  assert (E4 : outputDims a = outputDims b) by congruence.
  assert (E5 : session a = session b) by congruence.
  unfold render_ready, contour_enabled, smooth_enabled, k_size.
  rewrite E1, E2, E3, E4, E5; reflexivity.
Qed.

(** After the conversion to BGR, the remaining stages of a render call
    return only when the structure is ready. *)
Lemma render_core_returned (tf1 : background_removal_filter) (img resized : Mat pixel)
    (s : Session) (output : list float) (outImg : Mat float) (masked : Mat pixel) :
  resize_to_network_input tf1 (cvtColor_BGR2RGB img) = Returned resized ->
  session tf1 = Some s ->
  output_image
    (set_outputTensorValues
       (set_inputTensorValues tf1 (elems (normalize_and_pack tf1 resized))) output)
  = Returned outImg ->
  mask_the_input
    (set_outputTensorValues
       (set_inputTensorValues tf1 (elems (normalize_and_pack tf1 resized))) output)
    outImg img
  = Returned masked ->
  render_ready tf1 = true.
Proof.
  intros Hres Hs Hout Hmask.
  assert (H3 : is_some (nth_error (inputDims tf1) 3) = true)
    by (apply (resize_to_network_input_returns tf1 (cvtColor_BGR2RGB img));
        exists resized; exact Hres).
  apply output_image_returns in Hout.
  destruct Hout as (r & c & Hr & Hc & Ho).
  change (outputDims _) with (outputDims tf1) in Hr, Hc.
  apply mask_the_input_returned in Hmask.
  unfold render_ready; rewrite Hs, Hr, Hc.
  destruct (nth_error (inputDims tf1) 3); [| discriminate H3].
  rewrite Ho in Hmask; exact Hmask.
Qed.


(** A render call returns a frame only when the structure is ready: a
    session is held, both cached shapes have four entries, and the casts
    of the enabled refinements are defined.  In every other state the
    call does not return, whatever the frame. *)
Theorem filter_render_returns_only_when_ready (tf : background_removal_filter)
    (frame : obs_source_frame) (w : World)
    (r : obs_source_frame * background_removal_filter * World) :
  filter_render tf frame w = Returned r -> render_ready tf = true.
Proof.
  destruct r as [[f' tf'] w']; intros H.
  pose proof (convertFrameToBGR_payload frame tf w) as P.
  apply payload_parts in P; destruct P as [Pc Pm].
  rewrite <- (render_ready_ext _ _ Pc Pm).
  destruct (filter_render_returned _ _ _ _ _ _ H)
    as (img & tf1 & w1 & resized & s & output & outImg & masked
        & Hc & Hres & Hs & _ & Hout & Hmask & _).
  rewrite Hc; cbn [fst snd].
  exact (render_core_returned tf1 img resized s output outImg masked Hres Hs Hout Hmask).
Qed.

Lemma on_channels_length (op : float -> double -> float) (m : Mat pixelf) (s : scalar3) :
  List.length (elems (on_channels op m s)) = List.length (elems m).
Proof.
  destruct s as [[s0 s1] s2]; unfold on_channels, mat_map; cbn [elems].
  apply length_map.
Qed.

Lemma hwc_to_chw_length (m : Mat pixelf) :
  List.length (elems (hwc_to_chw m)) = (3 * List.length (elems m))%nat.
Proof.
  unfold hwc_to_chw; cbn [elems]; rewrite !length_app, !length_map.
  unfold pixelf, float; lia.
Qed.

Lemma normalize_and_pack_length (tf : background_removal_filter) (m : Mat pixel) :
  List.length (elems (normalize_and_pack tf m)) = (3 * List.length (elems m))%nat.
Proof.
  unfold normalize_and_pack; rewrite hwc_to_chw_length; f_equal.
  destruct (is_SINet tf); unfold cv_multiply, cv_subtract, cv_divide;
    rewrite !on_channels_length; unfold convertTo_32F, mat_map; cbn [elems];
    apply length_map.
Qed.

(** After a render call the input buffer holds three planes of the
    resized image, [3 * inputDims[2] * inputDims[3]] values, whatever the
    batch and channel entries of the cached shape are. *)
Theorem filter_render_fills_input_buffer (tf : background_removal_filter)
    (frame : obs_source_frame) (w : World) (f' : obs_source_frame)
    (tf' : background_removal_filter) (w' : World) (n c h w3 : Z) (rest : list Z) :
  resize_fills_size ->
  inputDims tf = n :: c :: h :: w3 :: rest ->
  0 <= to_int h -> 0 <= to_int w3 ->
  filter_render tf frame w = Returned (f', tf', w') ->
  List.length (inputTensorValues tf') = (3 * Z.to_nat (to_int h * to_int w3))%nat.
Proof.
  intros Hfill Hdims Hh Hw H.
  destruct (filter_render_returned _ _ _ _ _ _ H)
    as (img & tf1 & w1 & resized & s & output & outImg & masked & Hc & Hres & _ & _ & _ & _ & Hfin).
  pose proof (convertFrameToBGR_payload frame tf w) as P1; rewrite Hc in P1.
  match type of Hfin with
  | convertBGRToFrame ?m ?f ?t ?x = _ =>
      pose proof (convertBGRToFrame_payload m f t x) as P2; rewrite Hfin in P2
  end.
  cbn [fst snd] in P1, P2.
  assert (Hin : inputTensorValues tf' = elems (normalize_and_pack tf1 resized))
    by (unfold payload in P2;
        cbn [inputTensorValues set_outputTensorValues set_inputTensorValues] in P2;
        congruence).
  assert (Hd1 : inputDims tf1 = n :: c :: h :: w3 :: rest)
    by (unfold payload, loaded_model in P1; congruence).
  unfold resize_to_network_input in Hres; rewrite Hd1 in Hres.
  cbn [vector_at nth_error of_option bind] in Hres.
  assert (Hr : resized = cv_resize_8UC3 (cvtColor_BGR2RGB img)
                           (mkSize (to_int h) (to_int w3))) by congruence.
  rewrite Hin, normalize_and_pack_length, Hr.
  unfold cv_resize_8UC3; cbn [elems]; rewrite Hfill by assumption; reflexivity.
Qed.

(** ** Converters over the life of the filter *)

Lemma remove_pair (a b : nat) :
  a <> b -> remove Nat.eq_dec b (remove Nat.eq_dec a [b; a]) = [].
Proof.
  intros Hab; simpl.
  destruct (Nat.eq_dec a b) as [E | _]; [contradiction |].
  destruct (Nat.eq_dec a a) as [_ | N]; [| contradiction].
  simpl; destruct (Nat.eq_dec b b) as [_ | N]; [reflexivity | contradiction].
Qed.

Lemma destroyScalers_balanced (tf : background_removal_filter) (w : World) :
  converters_balanced tf w ->
  live_scalers (calls (snd (destroyScalers tf w))) = []
  /\ converters_balanced (fst (destroyScalers tf w)) (snd (destroyScalers tf w)).
Proof.
  intros [(Ha & Hb & Hl) | (a & b & Ha & Hb & Hab & Hl)];
    unfold destroyScalers; rewrite Ha, Hb; cbn [fst snd].
  - split; [exact Hl | left; repeat split; exact Hl].
  - assert (E : live_scalers (calls (record_call (Call_scaler_destroy b)
                                       (record_call (Call_scaler_destroy a) w))) = []).
    { cbn [record_call calls live_scalers]; rewrite Hl; apply remove_pair; exact Hab. }
    split; [exact E | left; repeat split; exact E].
Qed.

Lemma initializeScalers_balanced (sz : Size) (fmt : video_format)
    (tf : background_removal_filter) (w : World) :
  converters_balanced tf w ->
  converters_balanced (fst (initializeScalers sz fmt tf w))
    (snd (initializeScalers sz fmt tf w)).
Proof.
  intros Hbal; unfold initializeScalers.
  destruct (destroyScalers_balanced tf w Hbal) as [Hl _].
  destruct (destroyScalers tf w) as [tf0 w0]; cbn [fst snd] in *.
  right; eexists; eexists; cbn [fst snd scalerToBGR scalerFromBGR set_scalers].
  split; [reflexivity |]; split; [reflexivity |]; split.
  - cbn [vs_handle fresh_handle fst snd record_call next_handle]; lia.
  - cbn [fresh_handle fst snd record_call calls live_scalers vs_handle next_handle].
    rewrite Hl; reflexivity.
Qed.

Lemma record_call_balanced (tf tf' : background_removal_filter) (w : World) (c : call) :
  (forall s, c <> Call_scaler_create s) -> (forall s, c <> Call_scaler_destroy s) ->
  scalerToBGR tf' = scalerToBGR tf -> scalerFromBGR tf' = scalerFromBGR tf ->
  converters_balanced tf w -> converters_balanced tf' (record_call c w).
Proof.
  intros Hc Hd Ea Eb Hbal.
  assert (El : live_scalers (calls (record_call c w)) = live_scalers (calls w)).
  { cbn [record_call calls]; destruct c; try reflexivity;
      [exfalso; eapply Hc | exfalso; eapply Hd]; reflexivity. }
  unfold converters_balanced; rewrite El, Ea, Eb; exact Hbal.
Qed.

Lemma convertFrameToBGR_balanced (frame : obs_source_frame)
    (tf : background_removal_filter) (w : World) :
  converters_balanced tf w ->
  converters_balanced (snd (fst (convertFrameToBGR frame tf w)))
    (snd (convertFrameToBGR frame tf w)).
Proof.
  intros Hbal; unfold convertFrameToBGR.
  destruct (scalerToBGR tf) as [s |] eqn:E.
  - rewrite E; cbn [fst snd].
    apply (record_call_balanced tf); try reflexivity; try discriminate; exact Hbal.
  - pose proof (initializeScalers_balanced (frame_size frame) (frame_format frame) tf w Hbal)
      as I.
    destruct (initializeScalers (frame_size frame) (frame_format frame) tf w) as [tf1 w1].
    cbn [fst snd] in I.
    destruct (scalerToBGR tf1); cbn [fst snd]; [| exact I].
    apply (record_call_balanced tf1); try reflexivity; try discriminate; exact I.
Qed.

Lemma convertBGRToFrame_balanced (img : Mat pixel) (frame : obs_source_frame)
    (tf : background_removal_filter) (w : World) :
  converters_balanced tf w ->
  converters_balanced (snd (fst (convertBGRToFrame img frame tf w)))
    (snd (convertBGRToFrame img frame tf w)).
Proof.
  intros Hbal; unfold convertBGRToFrame.
  destruct (scalerFromBGR tf) as [s |] eqn:E.
  - rewrite E; cbn [fst snd].
    apply (record_call_balanced tf); try reflexivity; try discriminate; exact Hbal.
  - pose proof (initializeScalers_balanced (frame_size frame) (frame_format frame) tf w Hbal)
      as I.
    destruct (initializeScalers (frame_size frame) (frame_format frame) tf w) as [tf1 w1].
    cbn [fst snd] in I.
    destruct (scalerFromBGR tf1); cbn [fst snd]; [| exact I].
    apply (record_call_balanced tf1); try reflexivity; try discriminate; exact I.
Qed.

Lemma createOrtSession_balanced (tf : background_removal_filter) (w : World) :
  converters_balanced tf w ->
  converters_balanced (fst (createOrtSession tf w)) (snd (createOrtSession tf w)).
Proof.
  intros Hbal; unfold createOrtSession.
  destruct (obs_module_file (modelSelection tf)) as [p |]; [| exact Hbal].
  cbn [set_modelFilepath useGPU].
  destruct (Session_new p (useGPU tf)) as [model |]; cbn [fst snd]; [| exact Hbal].
  unfold converters_balanced in *.
  cbn [scalerToBGR scalerFromBGR fresh_handle fst snd record_call calls live_scalers].
  exact Hbal.
Qed.

Lemma filter_update_balanced (tf : background_removal_filter) (settings : obs_data)
    (w : World) :
  converters_balanced tf w ->
  converters_balanced (fst (filter_update tf settings w)) (snd (filter_update tf settings w)).
Proof.
  intros Hbal; unfold filter_update.
  match goal with
  | |- context [destroyScalers ?t w] =>
      assert (Hb : converters_balanced t w) by exact Hbal;
      destruct (destroyScalers_balanced t w Hb) as [_ D];
      destruct (destroyScalers t w) as [tf0 w0]
  end.
  cbn [fst snd] in D; apply createOrtSession_balanced; exact D.
Qed.

Lemma filter_render_balanced (tf : background_removal_filter) (frame : obs_source_frame)
    (w : World) (f' : obs_source_frame) (tf' : background_removal_filter) (w' : World) :
  converters_balanced tf w ->
  filter_render tf frame w = Returned (f', tf', w') ->
  converters_balanced tf' w'.
Proof.
  intros Hbal H.
  destruct (filter_render_returned _ _ _ _ _ _ H)
    as (img & tf1 & w1 & resized & s & output & outImg & masked & Hc & _ & _ & _ & _ & _ & Hfin).
  pose proof (convertFrameToBGR_balanced frame tf w Hbal) as B1.
  rewrite Hc in B1; cbn [fst snd] in B1.
  match type of Hfin with
  | convertBGRToFrame ?m ?f ?t ?x = _ =>
      assert (B2 : converters_balanced t x)
        by (apply (record_call_balanced tf1); try reflexivity; try discriminate; exact B1);
      pose proof (convertBGRToFrame_balanced m f t x B2) as B3; rewrite Hfin in B3
  end.
  exact B3.
Qed.

Lemma run_filter_balanced (ops : list host_call) :
  forall (tf : background_removal_filter) (w : World)
         (tf' : background_removal_filter) (w' : World),
    converters_balanced tf w ->
    run_filter ops tf w = Returned (tf', w') ->
    converters_balanced tf' w'.
Proof.
  induction ops as [| op ops IH]; intros tf w tf' w' Hbal H; cbn [run_filter] in H.
  - assert (tf' = tf) by congruence; assert (w' = w) by congruence; subst; exact Hbal.
  - destruct op as [settings | frame].
    + pose proof (filter_update_balanced tf settings w Hbal) as U.
      destruct (filter_update tf settings w) as [tf1 w1]; cbn [fst snd] in U.
      exact (IH _ _ _ _ U H).
    + apply bind_returned in H; destruct H as ([[f1 tf1] w1] & Hr & H).
      exact (IH _ _ _ _ (filter_render_balanced _ _ _ _ _ _ Hbal Hr) H).
Qed.

(** Whatever updates and renders the host makes after [filter_create], at
    most two converters are alive at any return, they are the two the
    structure holds, and [filter_destroy] leaves none alive. *)
Theorem converters_never_leak (settings : obs_data) (ops : list host_call) (w0 : World)
    (tf' : background_removal_filter) (w' : World) :
  live_scalers (calls w0) = [] ->
  run_filter ops (fst (filter_create settings w0)) (snd (filter_create settings w0))
  = Returned (tf', w') ->
  converters_balanced tf' w'
  /\ (List.length (live_scalers (calls w')) <= 2)%nat
  /\ live_scalers (calls (filter_destroy (Some tf') w')) = [].
Proof.
  intros H0 Hrun.
  assert (B0 : converters_balanced bzalloc_filter w0) by (left; repeat split; exact H0).
  pose proof (filter_update_balanced bzalloc_filter settings w0 B0) as B1.
  pose proof (run_filter_balanced ops _ _ _ _ B1 Hrun) as B.
  split; [exact B |]; split.
  - destruct B as [(_ & _ & ->) | (a & b & _ & _ & _ & ->)]; simpl; lia.
  - unfold filter_destroy; apply destroyScalers_balanced; exact B.
Qed.

(** Render calls never rebuild a converter that is there: over any run
    of render calls that return, whatever the geometry of the frames, the
    two converters held at the start are the ones held at the end.  Only
    a settings update or the destruction of the filter drops them. *)
Theorem renders_keep_converters (later : list obs_source_frame)
    (tf : background_removal_filter) (w : World) (a b : video_scaler)
    (tf' : background_removal_filter) (w' : World) :
  scalerToBGR tf = Some a -> scalerFromBGR tf = Some b ->
  run_filter (map Host_render later) tf w = Returned (tf', w') ->
  scalerToBGR tf' = Some a /\ scalerFromBGR tf' = Some b.
Proof.
  revert tf w.
  induction later as [| frame later IH]; intros tf w Ha Hb H;
    cbn [map run_filter] in H.
  - assert (tf' = tf) by congruence; subst; split; assumption.
  - apply bind_returned in H; destruct H as ([[f1 tf1] w1] & Hr & H).
    destruct (filter_render_reuses_aux _ _ _ _ _ _ a b Ha Hb Hr) as (s & _ & _ & _ & A & B).
    exact (IH _ _ A B H).
Qed.
End RenderStructure.

(** ** Rounding never passes a representable bound *)

Lemma shr_1_exact (m : Z) :
  0 <= m -> m mod 2 = 0 ->
  shr_1 (Build_shr_record m false false) = Build_shr_record (m / 2) false false.
Proof.
  intros Hm Heven.
  destruct m as [| p | p]; [reflexivity | | lia].
  destruct p as [p | p |].
  - rewrite (Pos2Z.inj_xI p) in Heven.
    replace (2 * Z.pos p + 1) with (1 + Z.pos p * 2) in Heven by lia.
    rewrite Z_mod_plus_full in Heven; discriminate Heven.
  - cbn [shr_1 orb]; f_equal.
    rewrite (Pos2Z.inj_xO p); apply Z.div_unique with 0; lia.
  - discriminate Heven.
Qed.

Lemma pow2_divides_split (m a b : Z) :
  0 <= a -> 0 <= b -> m mod 2 ^ (a + b) = 0 ->
  m mod 2 ^ a = 0 /\ (m / 2 ^ a) mod 2 ^ b = 0.
Proof.
  intros Ha Hb H.
  assert (Pa : 0 < 2 ^ a) by (apply Z.pow_pos_nonneg; lia).
  assert (Pb : 0 < 2 ^ b) by (apply Z.pow_pos_nonneg; lia).
  apply Z.mod_divide in H; [| rewrite Z.pow_add_r by lia; lia].
  destruct H as [q Hq]; rewrite Z.pow_add_r in Hq by lia.
  assert (E : m = (q * 2 ^ b) * 2 ^ a) by lia.
  split.
  - rewrite E; apply Z_mod_mult.
  - rewrite E, Z_div_mult by lia; apply Z_mod_mult.
Qed.

Lemma iter_pos_shr_1_exact (n : positive) : forall m : Z,
  0 <= m -> m mod 2 ^ Zpos n = 0 ->
  SpecFloat.iter_pos shr_1 n (Build_shr_record m false false)
  = Build_shr_record (m / 2 ^ Zpos n) false false.
Proof.
  induction n as [n IH | n IH |]; intros m Hm Hdiv; cbn [SpecFloat.iter_pos].
  - rewrite (Pos2Z.inj_xI n) in Hdiv.
    replace (2 * Z.pos n + 1) with (1 + (Z.pos n + Z.pos n)) in Hdiv by lia.
    destruct (pow2_divides_split m 1 (Z.pos n + Z.pos n) ltac:(lia) ltac:(lia) Hdiv)
      as [H1 H2].
    change (2 ^ 1) with 2 in H1, H2.
    destruct (pow2_divides_split (m / 2) (Z.pos n) (Z.pos n) ltac:(lia) ltac:(lia) H2)
      as [H3 H4].
    assert (P : 0 < 2 ^ Z.pos n) by (apply Z.pow_pos_nonneg; lia).
    rewrite shr_1_exact by assumption.
    rewrite IH by (try apply Z.div_pos; lia || assumption).
    rewrite IH by (try (apply Z.div_pos; [apply Z.div_pos |]); lia || assumption).
    f_equal. rewrite !Z.div_div by lia. f_equal.
    rewrite (Pos2Z.inj_xI n).
    replace (2 * Z.pos n + 1) with (1 + Z.pos n + Z.pos n) by lia.
    rewrite !Z.pow_add_r by lia. lia.
  - rewrite (Pos2Z.inj_xO n) in Hdiv.
    replace (2 * Z.pos n) with (Z.pos n + Z.pos n) in Hdiv by lia.
    destruct (pow2_divides_split m (Z.pos n) (Z.pos n) ltac:(lia) ltac:(lia) Hdiv)
      as [H3 H4].
    assert (P : 0 < 2 ^ Z.pos n) by (apply Z.pow_pos_nonneg; lia).
    rewrite IH by assumption.
    rewrite IH by (try apply Z.div_pos; lia || assumption).
    f_equal. rewrite !Z.div_div by lia. f_equal.
    rewrite (Pos2Z.inj_xO n).
    replace (2 * Z.pos n) with (Z.pos n + Z.pos n) by lia.
    rewrite !Z.pow_add_r by lia. lia.
  - change (2 ^ 1) with 2 in *. apply shr_1_exact; assumption.
Qed.

(** The exact product [P * 2^ex] of two positive numbers, not above the
    integer [T < 2^24], rounds to a number whose truncation is not above
    [T]. *)
Lemma round_aux_le (P : positive) (ex T : Z) :
  0 < T < 2 ^ 24 -> ex <= 0 ->
  Zpos P <= T * 2 ^ (- ex) ->
  exists k, trunc (binary_round_aux 24 128 false (Zpos P) ex loc_Exact) = Some k
            /\ 0 <= k <= T.
Proof.
  intros HT Hex Hb.
  set (d := Zpos (digits2_pos P)).
  set (n := fexp 24 128 (d + ex) - ex).
  assert (Hd : d + ex <= 24).
  { pose proof (digits2_pos_bounds P) as [Hlo _]; fold d in Hlo.
    assert (2 ^ (d - 1) < 2 ^ (24 - ex)).
    { assert (T * 2 ^ (- ex) < 2 ^ 24 * 2 ^ (- ex))
        by (apply Z.mul_lt_mono_pos_r; [apply Z.pow_pos_nonneg; lia | lia]).
      rewrite <- Z.pow_add_r in H by lia.
      replace (24 + - ex) with (24 - ex) in H by lia. lia. }
    apply pow2_lt_inv in H; [lia |].
    unfold d; pose proof (Pos2Z.is_pos (digits2_pos P)); lia. }
  assert (Hn0 : 0 <= Z.max n 0) by lia.
  assert (He1 : ex + Z.max n 0 <= 0) by (unfold n, fexp, emin; lia).
  assert (Hpn : 0 < 2 ^ Z.max n 0) by (apply Z.pow_pos_nonneg; lia).
  unfold binary_round_aux, shr_fexp.
  change (Zdigits2 (Zpos P)) with d; fold n.
  destruct (shr (shr_record_of_loc (Zpos P) loc_Exact) ex n) as [mrs1 e1] eqn:E1.
  pose proof (shr_exact_m (Zpos P) ex n ltac:(lia)) as [Hm1 He1'].
  rewrite E1 in Hm1, He1'; cbn [fst snd] in Hm1, He1'.
  set (m2 := round_nearest_even (shr_m mrs1) (loc_of_shr_record mrs1)).
  assert (Hsplit : 2 ^ (- ex) = 2 ^ Z.max n 0 * 2 ^ (- e1)).
  { rewrite He1', <- Z.pow_add_r by lia. f_equal; lia. }
  assert (Pe1 : 0 < 2 ^ (- e1)) by (apply Z.pow_pos_nonneg; lia).
  assert (Hm2 : 0 <= m2 <= T * 2 ^ (- e1)).
  { pose proof (round_nearest_even_range (shr_m mrs1) (loc_of_shr_record mrs1)) as R.
    fold m2 in R.
    assert (H0 : 0 <= shr_m mrs1) by (rewrite Hm1; apply Z.div_pos; lia).
    split; [lia |].
    assert (Hle : shr_m mrs1 <= T * 2 ^ (- e1)).
    { rewrite Hm1. apply Z.div_le_upper_bound; [lia |]. nia. }
    destruct (Z_lt_le_dec (shr_m mrs1) (T * 2 ^ (- e1))) as [L | G]; [lia |].
    assert (Heq : shr_m mrs1 = T * 2 ^ (- e1)) by lia.
    assert (HP : Zpos P = 2 ^ Z.max n 0 * (T * 2 ^ (- e1))).
    { pose proof (Z.mul_div_le (Zpos P) (2 ^ Z.max n 0) Hpn) as Hmd.
      rewrite <- Hm1, Heq in Hmd. nia. }
    assert (Hexact : mrs1 = Build_shr_record (shr_m mrs1) false false).
    { destruct (Z_le_gt_dec n 0) as [Ln | Gn].
      - rewrite shr_exact_n0 in E1 by assumption. inversion E1; reflexivity.
      - destruct n as [| pn | pn]; try lia.
        cbn [shr shr_record_of_loc] in E1.
        rewrite iter_pos_shr_1_exact in E1.
        + inversion E1; reflexivity.
        + lia.
        + replace (Z.max (Z.pos pn) 0) with (Z.pos pn) in HP by lia.
          rewrite HP, Z.mul_comm; apply Z_mod_mult. }
    unfold m2; rewrite Hexact; cbn [loc_of_shr_record round_nearest_even shr_m]. lia. }
  destruct (shr (shr_record_of_loc m2 loc_Exact) e1 (fexp 24 128 (Zdigits2 m2 + e1) - e1))
    as [mrs3 e3] eqn:E3.
  set (n2 := fexp 24 128 (Zdigits2 m2 + e1) - e1) in *.
  pose proof (shr_exact_m m2 e1 n2 ltac:(lia)) as [Hm3 He3].
  rewrite E3 in Hm3, He3; cbn [fst snd] in Hm3, He3.
  assert (Hpn2 : 0 < 2 ^ Z.max n2 0) by (apply Z.pow_pos_nonneg; lia).
  destruct (shr_m mrs3) as [| m3 | m3] eqn:Em3.
  - exists 0; split; [reflexivity | lia].
  - assert (Hm2pos : 0 < m2).
    { destruct (Z_lt_le_dec 0 m2) as [L | G]; [exact L |].
      assert (m2 = 0) by lia. rewrite H in Hm3. rewrite Z.div_0_l in Hm3 by lia.
      discriminate Hm3. }
    assert (He3le : e3 <= 0).
    { destruct m2 as [| p2 | p2]; try lia.
      pose proof (digits2_pos_bounds p2) as [Hlo _].
      change (Zdigits2 (Zpos p2)) with (Zpos (digits2_pos p2)) in n2.
      assert (2 ^ (Zpos (digits2_pos p2) - 1) < 2 ^ (24 - e1)).
      { assert (T * 2 ^ (- e1) < 2 ^ 24 * 2 ^ (- e1))
          by (apply Z.mul_lt_mono_pos_r; lia).
        rewrite <- Z.pow_add_r in H by lia.
        replace (24 + - e1) with (24 - e1) in H by lia. lia. }
      apply pow2_lt_inv in H; [| pose proof (Pos2Z.is_pos (digits2_pos p2)); lia].
      unfold n2, fexp, emin in He3. lia. }
    assert (Hsplit2 : 2 ^ (- e1) = 2 ^ Z.max n2 0 * 2 ^ (- e3)).
    { rewrite <- Z.pow_add_r by lia. f_equal; lia. }
    assert (Pe3 : 0 < 2 ^ (- e3)) by (apply Z.pow_pos_nonneg; lia).
    assert (Hm3le : Zpos m3 <= T * 2 ^ (- e3)).
    { rewrite Hm3. apply Z.div_le_upper_bound; [lia |]. nia. }
    replace (e3 <=? 128 - 24) with true by (symmetry; apply Z.leb_le; lia).
    cbn [trunc cond_Zopp].
    exists (Z.shiftl (Zpos m3) e3); split; [reflexivity |].
    destruct (Z_lt_le_dec e3 0) as [L | G].
    + rewrite Z.shiftl_div_pow2 by lia.
      split; [apply Z.div_pos; lia |].
      apply Z.div_le_upper_bound; lia.
    + assert (E0 : e3 = 0) by lia; rewrite E0 in Hm3le |- *.
      rewrite Z.shiftl_0_r. change (2 ^ (- 0)) with 1 in Hm3le. lia.
  - exfalso. assert (0 <= Zneg m3); [| lia].
    rewrite Hm3. apply Z.div_pos; lia.
Qed.

(** ** Exact conversions *)

Lemma iter_xO_value (m k : positive) :
  Zpos (Pos.iter xO m k) = Zpos m * 2 ^ Zpos k.
Proof.
  induction k as [| k IH] using Pos.peano_ind.
  - cbn [Pos.iter]. change (2 ^ 1) with 2. lia.
  - rewrite Pos.iter_succ, (Pos2Z.inj_xO (Pos.iter xO m k)), IH, Pos2Z.inj_succ.
    rewrite Z.pow_succ_r by lia. ring.
Qed.

(** A number whose significand fits the format is converted without
    rounding: only the exponent is brought down to the canonical one. *)
Lemma binary_round_exact (prec emax : Z) (sx : bool) (p : positive) (e : Z) :
  fexp prec emax (Zpos (digits2_pos p) + e) <= e ->
  fexp prec emax (Zpos (digits2_pos p) + e) <= emax - prec ->
  exists mz,
    binary_round prec emax sx p e
    = S754_finite sx mz (fexp prec emax (Zpos (digits2_pos p) + e))
    /\ Zpos mz = Zpos p * 2 ^ (e - fexp prec emax (Zpos (digits2_pos p) + e)).
Proof.
  set (e' := fexp prec emax (Zpos (digits2_pos p) + e)).
  intros Hle Hmax.
  unfold binary_round, shl_align; fold e'.
  assert (Hfin : forall mz, Zpos (digits2_pos mz) + e' = Zpos (digits2_pos p) + e ->
                 binary_round_aux prec emax sx (Zpos mz) e' loc_Exact
                 = S754_finite sx mz e').
  { intros mz Hd.
    unfold binary_round_aux, shr_fexp.
    change (Zdigits2 (Zpos mz)) with (Zpos (digits2_pos mz)).
    rewrite Hd; fold e'; rewrite Z.sub_diag.
    cbn [shr shr_record_of_loc shr_m loc_of_shr_record round_nearest_even].
    change (Zdigits2 (Zpos mz)) with (Zpos (digits2_pos mz)).
    rewrite Hd; fold e'; rewrite Z.sub_diag.
    cbn [shr shr_record_of_loc shr_m].
    replace (e' <=? emax - prec) with true by (symmetry; apply Z.leb_le; exact Hmax).
    reflexivity. }
  destruct (e' - e) as [| k | k] eqn:Ek; try lia.
  - assert (e' = e) by lia.
    exists p; split.
    + rewrite <- H; apply Hfin; lia.
    + replace (e - e') with 0 by lia. change (2 ^ 0) with 1. lia.
  - exists (Pos.iter xO p k); split.
    + apply Hfin. rewrite iter_xO_digits, Pos2Z.inj_add. lia.
    + rewrite iter_xO_value. f_equal. f_equal. lia.
Qed.

Lemma float_of_Z_exact (p : positive) :
  Zpos p < 2 ^ 24 ->
  exists m e, float_of_Z (Zpos p) = S754_finite false m e
              /\ e <= 0 /\ Zpos m = Zpos p * 2 ^ (- e).
Proof.
  intros Hp.
  pose proof (digits2_pos_le p 24 ltac:(lia) Hp) as Hd.
  pose proof (Pos2Z.is_pos (digits2_pos p)) as Hd0.
  unfold float_of_Z, binary_normalize.
  destruct (binary_round_exact 24 128 false p 0) as (mz & E & V);
    try (unfold fexp, emin; lia).
  exists mz, (fexp 24 128 (Zpos (digits2_pos p) + 0)); split; [exact E |].
  split; [unfold fexp, emin; lia | rewrite V; f_equal; f_equal; lia].
Qed.

Lemma double_of_float_exact (s : bool) (m : positive) (e : Z) :
  bounded 24 128 m e = true ->
  exists mz,
    double_of_float (S754_finite s m e)
    = S754_finite s mz (Zpos (digits2_pos m) + e - 53)
    /\ Zpos mz = Zpos m * 2 ^ (53 - Zpos (digits2_pos m)).
Proof.
  intros Hb; destruct (bounded_float_inv m e Hb) as (Hd & He & _).
  pose proof (Pos2Z.is_pos (digits2_pos m)) as Hd0.
  assert (Hb2 : e <= 104).
  { unfold bounded in Hb; apply andb_prop in Hb; destruct Hb as [_ Hb].
    apply Z.leb_le in Hb; lia. }
  assert (Ef : fexp 53 1024 (Zpos (digits2_pos m) + e) = Zpos (digits2_pos m) + e - 53)
    by (unfold fexp, emin; lia).
  unfold double_of_float, binary_normalize.
  destruct (binary_round_exact 53 1024 s m e) as (mz & E & V); try (rewrite Ef; lia).
  rewrite Ef in E, V.
  exists mz; split.
  - destruct s; exact E.
  - rewrite V; f_equal; f_equal; lia.
Qed.

Lemma float_le_inv (m : positive) (e : Z) (m0 : positive) (e0 : Z) :
  SFleb (S754_finite false m e) (S754_finite false m0 e0) = true ->
  e < e0 \/ (e = e0 /\ Zpos m <= Zpos m0).
Proof.
  unfold SFleb, SFcompare.
  destruct (Z.compare_spec e e0) as [E | L | G]; intros H.
  - right; split; [exact E |].
    change (Pos.compare_cont Eq m m0) with (Pos.compare m m0) in H.
    destruct (Pos.compare_spec m m0) as [E' | L' | G']; try discriminate H.
    + rewrite E'; apply Z.le_refl.
    + apply Z.lt_le_incl; exact L'.
  - left; exact L.
  - discriminate H.
Qed.

Lemma d1_0_bits : d1_0 = S754_finite false 4503599627370496 (-52).
Proof. vm_compute; reflexivity. Qed.

Lemma f1_0_bits : f1_0 = S754_finite false 8388608 (-23).
Proof. vm_compute; reflexivity. Qed.

(** A valid [float] that the C++ comparisons place strictly between 0.0
    and 1.0 is a positive finite number below one. *)
Lemma between_zero_and_one (x : float) :
  valid_float x = true ->
  gt (double_of_float x) d0_0 = true ->
  lt (double_of_float x) d1_0 = true ->
  exists m e, x = S754_finite false m e /\ bounded 24 128 m e = true
              /\ e < 0 /\ Zpos m < 2 ^ (- e).
Proof.
  unfold valid_float, gt, lt, d0_0, zero; rewrite d1_0_bits.
  destruct x as [s | s | | s m e]; cbn [valid_binary]; intros Hv H0 H1.
  - destruct s; discriminate H0.
  - destruct s; [discriminate H0 | discriminate H1].
  - discriminate H0.
  - destruct (double_of_float_exact s m e Hv) as (mz & E & V).
    rewrite E in H0, H1.
    destruct s; [discriminate H0 |].
    exists m, e; split; [reflexivity |]; split; [exact Hv |].
    apply float_lt_inv in H1.
    pose proof (digits2_pos_bounds m) as [Hlo Hhi].
    pose proof (Pos2Z.is_pos (digits2_pos m)) as Hd0.
    set (d := Zpos (digits2_pos m)) in *.
    destruct (bounded_float_inv m e Hv) as (Hd & He & _); fold d in Hd.
    destruct H1 as [L | [Eq L]].
    + split; [lia |].
      assert (2 ^ d <= 2 ^ (- e)) by (apply Z.pow_le_mono_r; lia). lia.
    + exfalso.
      rewrite V in L.
      assert (Hs : 2 ^ 52 = 2 ^ (d - 1) * 2 ^ (53 - d)).
      { rewrite <- Z.pow_add_r by lia. f_equal; lia. }
      change 4503599627370496 with (2 ^ 52) in L. rewrite Hs in L.
      assert (0 < 2 ^ (53 - d)) by (apply Z.pow_pos_nonneg; lia).
      nia.
Qed.

(** A valid [float] that the C++ comparison places above 0.0 and that is
    at most [1.0f] is a positive finite number at most one. *)
Lemma between_zero_and_one_incl (x : float) :
  valid_float x = true ->
  gt (double_of_float x) d0_0 = true ->
  SFleb x f1_0 = true ->
  exists m e, x = S754_finite false m e /\ bounded 24 128 m e = true
              /\ e < 0 /\ Zpos m <= 2 ^ (- e).
Proof.
  unfold valid_float, gt, d0_0, zero; rewrite f1_0_bits.
  destruct x as [s | s | | s m e]; cbn [valid_binary]; intros Hv H0 H1.
  - destruct s; discriminate H0.
  - destruct s; [discriminate H0 | discriminate H1].
  - discriminate H0.
  - destruct (double_of_float_exact s m e Hv) as (mz & E & V).
    rewrite E in H0.
    destruct s; [discriminate H0 |].
    exists m, e; split; [reflexivity |]; split; [exact Hv |].
    destruct (bounded_float_inv m e Hv) as (Hd & He & Hm).
    apply float_le_inv in H1; destruct H1 as [L | [E1 L]].
    + split; [lia |].
      assert (2 ^ 24 <= 2 ^ (- e)) by (apply Z.pow_le_mono_r; lia). lia.
    + split; [lia |].
      rewrite E1; change (2 ^ (- -23)) with (Zpos 8388608); exact L.
Qed.

(** ** The casts of the refinements over the range of the sliders *)

Lemma cast_to_in_range (bits k : Z) (x : spec_float) :
  trunc x = Some k -> - 2 ^ (bits - 1) <= k < 2 ^ (bits - 1) -> cast_to bits x = Some k.
Proof.
  intros Ht Hr; unfold cast_to; rewrite Ht.
  replace (- 2 ^ (bits - 1) <=? k) with true by (symmetry; apply Z.leb_le; lia).
  replace (k <? 2 ^ (bits - 1)) with true by (symmetry; apply Z.ltb_lt; lia).
  reflexivity.
Qed.

Lemma k_size_bounded (tf : background_removal_filter) :
  valid_float (smoothContour tf) = true ->
  smooth_enabled tf = true ->
  SFleb (smoothContour tf) f1_0 = true ->
  exists k, k_size tf = Some k /\ 0 <= k <= 100.
Proof.
  intros Hv Hen Hle.
  destruct (between_zero_and_one_incl _ Hv Hen Hle) as (m & e & Hx & Hb & He & Hm).
  unfold k_size, cast_int, fmul; rewrite float_100_bits, Hx.
  unfold SFmul; change (xorb false false) with false.
  destruct (round_aux_le (13107200 * m) (-17 + e) 100) as (k & Hk & Hr).
  - change (2 ^ 24) with 16777216; lia.
  - lia.
  - rewrite Pos2Z.inj_mul.
    replace (- (-17 + e)) with (17 + - e) by lia.
    rewrite Z.pow_add_r by lia.
    change (2 ^ 17) with 131072. nia.
  - exists k; split; [| exact Hr].
    apply cast_to_in_range; [exact Hk |].
    change (2 ^ (32 - 1)) with 2147483648; lia.
Qed.

(** When the smoothing branch is taken and [smoothContour] is a valid
    [float] of at most 1, the end of its slider, the cast
    [(int)(100 * smoothContour)] is defined and the kernel size lies
    between 0 and 100. *)
Theorem k_size_at_most_100 (tf : background_removal_filter) :
  valid_float (smoothContour tf) = true ->
  smooth_enabled tf = true ->
  SFleb (smoothContour tf) f1_0 = true ->
  exists k, k_size tf = Some k /\ 0 <= k <= 100.
Proof. exact (k_size_bounded tf). Qed.

Lemma contour_threshold_bounded (tf : background_removal_filter)
    (backgroundMask : Mat uchar) :
  valid_float (contourFilter tf) = true ->
  contour_enabled tf = true ->
  0 < total backgroundMask < 2 ^ 24 ->
  exists thr, contourSizeThreshold tf backgroundMask = Some thr
              /\ 0 <= thr <= total backgroundMask.
Proof.
  intros Hv Hen Ht.
  unfold contour_enabled in Hen; apply andb_prop in Hen; destruct Hen as [H0 H1].
  destruct (between_zero_and_one _ Hv H0 H1) as (m & e & Hx & Hb & He & Hm).
  unfold contourSizeThreshold, cast_int64, fmul; rewrite Hx.
  destruct (total backgroundMask) as [| p | p] eqn:Etot; try lia.
  destruct (float_of_Z_exact p ltac:(lia)) as (mt & et & Ef & Het & Vt).
  rewrite Ef; unfold SFmul; change (xorb false false) with false.
  destruct (round_aux_le (mt * m) (et + e) (Zpos p)) as (k & Hk & Hr).
  - lia.
  - lia.
  - rewrite Pos2Z.inj_mul, Vt.
    replace (- (et + e)) with (- et + - e) by lia.
    rewrite Z.pow_add_r by lia.
    assert (0 < 2 ^ (- et)) by (apply Z.pow_pos_nonneg; lia).
    nia.
  - exists k; split; [| exact Hr].
    apply cast_to_in_range; [exact Hk |].
    change (2 ^ (64 - 1)) with 9223372036854775808.
    change (2 ^ 24) with 16777216 in Ht. lia.
Qed.

(** When the contour branch is taken on a mask of fewer than [2^24]
    elements, with [contourFilter] a valid [float], the cast
    [(int64_t)(total * contourFilter)] is defined and the threshold lies
    between 0 and the number of elements. *)
Theorem contourSizeThreshold_at_most_total (tf : background_removal_filter)
    (backgroundMask : Mat uchar) :
  valid_float (contourFilter tf) = true ->
  contour_enabled tf = true ->
  0 < total backgroundMask < 2 ^ 24 ->
  exists thr, contourSizeThreshold tf backgroundMask = Some thr
              /\ 0 <= thr <= total backgroundMask.
Proof. exact (contour_threshold_bounded tf backgroundMask). Qed.

Section Readiness.
Context {cv : OpenCV} {obs : LibObs}.

End Readiness.

Lemma setTo_elems_either (color : pixel) (img : list pixel) :
  forall (mask : list uchar) (i : nat) (q : pixel),
    nth_error (setTo_elems color img mask) i = Some q ->
    exists p, nth_error img i = Some p /\ (q = p \/ q = color).
Proof.
  induction img as [| p img IH]; intros mask i q H.
  - destruct mask; destruct i; discriminate H.
  - destruct mask as [| v mask].
    + exists q; split; [exact H | left; reflexivity].
    + destruct i as [| i]; cbn [setTo_elems nth_error] in *.
      * exists p; split; [reflexivity |].
        injection H as <-; destruct (v =? 0); [left | right]; reflexivity.
      * exact (IH mask i q H).
Qed.

Section Compositing.
Context {cv : OpenCV}.

(** Whatever mask the refinements produce, the image that leaves lines
    393-425 has the geometry and the number of pixels of the image that
    entered, and each of its pixels is either the pixel that was there or
    the background colour: nothing is blended and nothing is moved. *)
Theorem mask_the_input_only_replaces (tf : background_removal_filter)
    (outputImage : Mat float) (imageBGR masked : Mat pixel) :
  mask_the_input tf outputImage imageBGR = Returned masked ->
  rows masked = rows imageBGR
  /\ cols masked = cols imageBGR
  /\ List.length (elems masked) = List.length (elems imageBGR)
  /\ forall i q, nth_error (elems masked) i = Some q ->
       exists p, nth_error (elems imageBGR) i = Some p
                 /\ (q = p \/ q = backgroundColor tf).
Proof.
  intros H; unfold mask_the_input in H.
  apply bind_returned in H; destruct H as (mask & _ & H).
  assert (E : masked = setTo_masked imageBGR (backgroundColor tf) mask) by congruence.
  subst masked; unfold setTo_masked; cbn [rows cols elems].
  split; [reflexivity |]; split; [reflexivity |]; split.
  - apply setTo_elems_length.
  - intros i q Hq; exact (setTo_elems_either _ _ _ _ _ Hq).
Qed.
End Compositing.

Lemma Ref_resize_fills_size : @resize_fills_size Ref.cv.
Proof.
  intros m sz Hw Hh; simpl.
  unfold Ref.nearest_samples.
  rewrite (flat_map_length_const _ (Z.to_nat (width sz))).
  - rewrite zrange_length; lia.
  - intros a _; now rewrite length_map, zrange_length.
Qed.

(** * The further properties on concrete inputs *)
Module MoreExamples.
Import Ref Cases.

Lemma vectorProduct_witness :
  - 2 ^ 63 <= shape_product [1; 3; 320; 320] < 2 ^ 63
  /\ vectorProduct [1; 3; 320; 320] = shape_product [1; 3; 320; 320].
Proof.
  assert (H : - 2 ^ 63 <= shape_product [1; 3; 320; 320] < 2 ^ 63)
    by (vm_compute; split; [discriminate | reflexivity]).
  split; [exact H |].
  exact (proj2 (vectorProduct_wraps_product [1; 3; 320; 320]) H).
Defined.

Lemma hwc_to_chw_witness :
  (1 < 3)%nat /\ (1 < List.length (elems pixelf_image))%nat
  /\ nth_error (elems (hwc_to_chw pixelf_image)) (1 * List.length (elems pixelf_image) + 1)
     = option_map (channel 1) (nth_error (elems pixelf_image) 1).
Proof.
  assert (H1 : (1 < 3)%nat) by lia.
  assert (H2 : (1 < List.length (elems pixelf_image))%nat) by (simpl; lia).
  split; [exact H1 |]; split; [exact H2 |].
  exact (proj2 (proj2 (proj2 (hwc_to_chw_planar pixelf_image 1 1 H1 H2)))).
Defined.

Lemma setTo_masked_witness :
  nth_error (elems image_2x2) 1 = Some (40, 50, 60)
  /\ nth_error (elems (mkMat 2 2 [0; 255; 0; 0])) 1 = Some 255
  /\ nth_error (elems (setTo_masked image_2x2 (255, 0, 0) (mkMat 2 2 [0; 255; 0; 0]))) 1
     = Some (if 255 =? 0 then (40, 50, 60) else (255, 0, 0)).
Proof.
  split; [reflexivity |]; split; [reflexivity |].
  exact (proj2 (proj2 (proj2
           (setTo_masked_selects image_2x2 (255, 0, 0) (mkMat 2 2 [0; 255; 0; 0]) 1
              (40, 50, 60) 255 eq_refl eq_refl)))).
Defined.


Lemma failed_reload_witness :
  @obs_module_file obs_without_models (get_model_select (plain_settings MODEL_MODNET)) = None
  /\ loaded_model (fst (@filter_update obs_without_models ort (fst created)
                          (plain_settings MODEL_MODNET) (snd created)))
     = loaded_model (fst created)
  /\ modelSelection (fst (@filter_update obs_without_models ort (fst created)
                            (plain_settings MODEL_MODNET) (snd created)))
     = MODEL_MODNET.
Proof.
  split; [reflexivity |].
  pose proof (@failed_reload_keeps_previous_model obs_without_models ort (fst created)
                (plain_settings MODEL_MODNET) (snd created) (or_introl eq_refl)) as H.
  split; [exact (proj1 H) | exact (proj1 (proj2 (proj2 (proj2 H))))].
Defined.

Lemma replaceColor_witness :
  get_replaceColor tinted = 17 + 256 * 34 + 65536 * 51 + 16777216 * 255
  /\ backgroundColor (fst (filter_update bzalloc_filter tinted world0)) = (17, 34, 51).
Proof.
  split; [reflexivity |].
  apply (replaceColor_bytes bzalloc_filter tinted world0 17 34 51 255); try lia.
  reflexivity.
Defined.

Lemma first_render_returns :
  filter_render (fst created) frame_2x2 (snd created)
  = Returned (fst (fst first_render), snd (fst first_render), snd first_render).
Proof. vm_compute; reflexivity. Qed.

Lemma filter_render_keeps_configuration_witness :
  filter_render (fst created) frame_2x2 (snd created)
  = Returned (fst (fst first_render), snd (fst first_render), snd first_render)
  /\ configuration (snd (fst first_render)) = configuration (fst created)
  /\ loaded_model (snd (fst first_render)) = loaded_model (fst created).
Proof.
  split; [exact first_render_returns |].
  exact (filter_render_keeps_configuration _ _ _ _ _ _ first_render_returns).
Defined.

Lemma filter_render_keeps_frame_geometry_witness :
  filter_render (fst created) frame_2x2 (snd created)
  = Returned (fst (fst first_render), snd (fst first_render), snd first_render)
  /\ (frame_width (fst (fst first_render)), frame_height (fst (fst first_render)),
      frame_format (fst (fst first_render)), frame_linesize (fst (fst first_render)))
     = (frame_width frame_2x2, frame_height frame_2x2, frame_format frame_2x2,
        frame_linesize frame_2x2).
Proof.
  split; [exact first_render_returns |].
  exact (filter_render_keeps_frame_geometry _ _ _ _ _ _ first_render_returns).
Defined.

Lemma second_render_returns :
  filter_render (snd (fst first_render)) frame_4x2 (snd first_render)
  = Returned (fst (fst second_render), snd (fst second_render), snd second_render).
Proof. vm_compute; reflexivity. Qed.

Lemma filter_render_reuses_converters_witness :
  scalerToBGR (snd (fst first_render))
  = Some (mkScaler 1 (mkInfo VIDEO_FORMAT_BGR3 2 2) (mkInfo VIDEO_FORMAT_BGR3 2 2))
  /\ scalerFromBGR (snd (fst first_render))
     = Some (mkScaler 2 (mkInfo VIDEO_FORMAT_BGR3 2 2) (mkInfo VIDEO_FORMAT_BGR3 2 2))
  /\ next_handle (snd second_render) = next_handle (snd first_render).
Proof.
  split; [reflexivity |]; split; [reflexivity |].
  destruct (filter_render_reuses_converters (snd (fst first_render)) frame_4x2
              (snd first_render) _ _ _
              (mkScaler 1 (mkInfo VIDEO_FORMAT_BGR3 2 2) (mkInfo VIDEO_FORMAT_BGR3 2 2))
              (mkScaler 2 (mkInfo VIDEO_FORMAT_BGR3 2 2) (mkInfo VIDEO_FORMAT_BGR3 2 2))
              eq_refl eq_refl second_render_returns) as (s & _ & _ & H & _).
  exact H.
Defined.

Lemma filter_render_fills_input_buffer_witness :
  inputDims (fst created) = [1; 3; 2; 2]
  /\ 0 <= to_int 2
  /\ List.length (inputTensorValues (snd (fst first_render)))
     = (3 * Z.to_nat (to_int 2 * to_int 2))%nat.
Proof.
  assert (H : 0 <= to_int 2) by (vm_compute; discriminate).
  split; [reflexivity |]; split; [exact H |].
  exact (filter_render_fills_input_buffer (fst created) frame_2x2 (snd created) _ _ _
           1 3 2 2 [] Ref_resize_fills_size eq_refl H H first_render_returns).
Defined.

Lemma session_story_returns :
  run_filter session_story (fst (filter_create (plain_settings MODEL_SINET) world0))
    (snd (filter_create (plain_settings MODEL_SINET) world0))
  = Returned (fst story_end, snd story_end).
Proof. vm_compute; reflexivity. Qed.

Lemma converters_never_leak_witness :
  live_scalers (calls world0) = []
  /\ (List.length (live_scalers (calls (snd story_end))) <= 2)%nat
  /\ live_scalers (calls (filter_destroy (Some (fst story_end)) (snd story_end))) = [].
Proof.
  split; [reflexivity |].
  exact (proj2 (converters_never_leak (plain_settings MODEL_SINET) session_story world0
                  (fst story_end) (snd story_end) eq_refl session_story_returns)).
Defined.

Lemma renders_keep_converters_witness :
  scalerToBGR (snd (fst first_render))
  = Some (mkScaler 1 (mkInfo VIDEO_FORMAT_BGR3 2 2) (mkInfo VIDEO_FORMAT_BGR3 2 2))
  /\ scalerFromBGR (snd (fst first_render))
     = Some (mkScaler 2 (mkInfo VIDEO_FORMAT_BGR3 2 2) (mkInfo VIDEO_FORMAT_BGR3 2 2))
  /\ run_filter (map Host_render [frame_4x2; frame_4x2]) (snd (fst first_render))
       (snd first_render)
     = Returned (fst two_wider_frames_end, snd two_wider_frames_end)
  /\ scalerToBGR (fst two_wider_frames_end)
     = Some (mkScaler 1 (mkInfo VIDEO_FORMAT_BGR3 2 2) (mkInfo VIDEO_FORMAT_BGR3 2 2))
  /\ scalerFromBGR (fst two_wider_frames_end)
     = Some (mkScaler 2 (mkInfo VIDEO_FORMAT_BGR3 2 2) (mkInfo VIDEO_FORMAT_BGR3 2 2)).
Proof.
  assert (H : run_filter (map Host_render [frame_4x2; frame_4x2]) (snd (fst first_render))
                (snd first_render)
              = Returned (fst two_wider_frames_end, snd two_wider_frames_end))
    by (vm_compute; reflexivity).
  split; [reflexivity |]; split; [reflexivity |]; split; [exact H |].
  exact (renders_keep_converters [frame_4x2; frame_4x2] (snd (fst first_render))
           (snd first_render)
           (mkScaler 1 (mkInfo VIDEO_FORMAT_BGR3 2 2) (mkInfo VIDEO_FORMAT_BGR3 2 2))
           (mkScaler 2 (mkInfo VIDEO_FORMAT_BGR3 2 2) (mkInfo VIDEO_FORMAT_BGR3 2 2))
           _ _ eq_refl eq_refl H).
Defined.

Lemma k_size_witness :
  valid_float (smoothContour default_refinements) = true
  /\ smooth_enabled default_refinements = true
  /\ SFleb (smoothContour default_refinements) f1_0 = true
  /\ exists k, k_size default_refinements = Some k /\ 0 <= k <= 100.
Proof.
  split; [reflexivity |]; split; [reflexivity |]; split; [reflexivity |].
  exact (k_size_at_most_100 default_refinements eq_refl eq_refl eq_refl).
Defined.

Lemma contourSizeThreshold_witness :
  valid_float (contourFilter default_refinements) = true
  /\ contour_enabled default_refinements = true
  /\ 0 < total (block_mask 4) < 2 ^ 24
  /\ exists thr, contourSizeThreshold default_refinements (block_mask 4) = Some thr
                 /\ 0 <= thr <= total (block_mask 4).
Proof.
  assert (H : 0 < total (block_mask 4) < 2 ^ 24) by (vm_compute; split; reflexivity).
  split; [reflexivity |]; split; [reflexivity |]; split; [exact H |].
  exact (contourSizeThreshold_at_most_total default_refinements (block_mask 4)
           eq_refl eq_refl H).
Defined.


Lemma mask_the_input_witness :
  mask_the_input modnet_filter zeros_2x2 image_2x2
  = Returned (mkMat 2 2 (repeat (255, 0, 0) 4))
  /\ List.length (elems (mkMat 2 2 (repeat ((255, 0, 0) : pixel) 4)))
     = List.length (elems image_2x2).
Proof.
  assert (H : mask_the_input modnet_filter zeros_2x2 image_2x2
              = Returned (mkMat 2 2 (repeat (255, 0, 0) 4))) by (vm_compute; reflexivity).
  split; [exact H |].
  exact (proj1 (proj2 (proj2
           (mask_the_input_only_replaces modnet_filter zeros_2x2 image_2x2 _ H)))).
Defined.

Lemma filter_render_returns_only_when_ready_witness :
  filter_render (fst created) frame_2x2 (snd created)
  = Returned (fst (fst first_render), snd (fst first_render), snd first_render)
  /\ render_ready (fst created) = true.
Proof.
  split; [exact first_render_returns |].
  exact (filter_render_returns_only_when_ready _ _ _ _ first_render_returns).
Defined.
End MoreExamples.
